(** * Shuttle: a shallow embedding of the service layer

    The development follows the Go sources: the [client] package
    (configuration records and their comparison functions), the
    [Service] type of package [main] with its backend list operations,
    statistics, configuration snapshot, the TCP connect walk, the UDP
    datagram loop, and the state-file writer.

    Conventions.
    - Go's [int] is taken to be 64 bits wide, like [int64] and
      [time.Duration]; values are [Z] and every arithmetic operation of
      the source is followed by [wrap64].
    - Go strings are byte strings: [string].
    - A nil slice and an empty slice are told apart only by
      [reflect.DeepEqual]; fields that reach it are [option (list _)],
      with [None] for nil.  Slices that are only measured, ranged over
      and appended to are plain lists.
    - [map[string][]int] is [gmap string (option (list Z))], nil being
      [None] one level up.
    - Logging, [Backend.Start]/[Backend.Stop], closing a connection and
      writing a file are recorded as events in a trace.
    - A run-time panic (slice bounds, nil dereference) is [None]. *)

From Stdlib Require Import ZArith String List Lia Permutation.
From stdpp Require Import base decidable option list strings gmap.

Import ListNotations.
Local Open Scope Z_scope.

(** ** Machine integers *)

Definition wrap64 (z : Z) : Z := (z + 2 ^ 63) mod 2 ^ 64 - 2 ^ 63.

Definition int64_range (z : Z) : Prop := - 2 ^ 63 <= z < 2 ^ 63.

(** [time.Millisecond], in nanoseconds. *)
Definition Millisecond : Z := 1000000.

(** [time.Duration(n) * time.Millisecond] *)
Definition ms_to_duration (n : Z) : Z := wrap64 (n * Millisecond).

(** [int(d / time.Millisecond)]: Go's division truncates towards zero. *)
Definition duration_to_ms (d : Z) : Z := Z.quot d Millisecond.

(** [s[:n]] on a Go string: panics when [n] exceeds the length. *)
Definition slice_to (n : nat) (s : string) : option string :=
  if (n <=? String.length s)%nat then Some (String.substring 0 n s) else None.

(** ** Package client *)

Module BackendConfig.

Record t := mk {
  Name : string;
  Addr : string;
  CheckAddr : string;
  Weight : Z;
  Network : string
}.

#[global] Instance BackendConfig_eq_dec : EqDecision t.
Proof. solve_decision. Defined.

Definition set_Weight (w : Z) (b : t) : t :=
  mk (Name b) (Addr b) (CheckAddr b) w (Network b).

Definition set_Network (n : string) (b : t) : t :=
  mk (Name b) (Addr b) (CheckAddr b) (Weight b) n.

(** [func (b BackendConfig) Equal(other BackendConfig) bool] *)
Definition Equal (b other : t) : bool :=
  let other := if Weight other =? 0 then set_Weight 1 other else other in
  let b := if Weight b =? 0 then set_Weight 1 b else b in
  let b := if String.eqb (Network b) "" then set_Network "tcp" b else b in
  let other :=
    if String.eqb (Network other) "" then set_Network "tcp" other else other in
  bool_decide (b = other).

End BackendConfig.

Module ServiceConfig.

Record t := mk {
  Name : string;
  Addr : string;
  VirtualHosts : option (list string);
  Balance : string;
  CheckInterval : Z;
  Fall : Z;
  Rise : Z;
  ClientTimeout : Z;
  ServerTimeout : Z;
  DialTimeout : Z;
  ErrorPages : option (gmap string (option (list Z)));
  Network : string;
  Backends : list BackendConfig.t
}.

#[global] Instance ServiceConfig_eq_dec : EqDecision t.
Proof. solve_decision. Defined.

Definition set_Balance (x : string) (s : t) : t :=
  mk (Name s) (Addr s) (VirtualHosts s) x (CheckInterval s) (Fall s)
     (Rise s) (ClientTimeout s) (ServerTimeout s) (DialTimeout s)
     (ErrorPages s) (Network s) (Backends s).

Definition set_CheckInterval (x : Z) (s : t) : t :=
  mk (Name s) (Addr s) (VirtualHosts s) (Balance s) x (Fall s)
     (Rise s) (ClientTimeout s) (ServerTimeout s) (DialTimeout s)
     (ErrorPages s) (Network s) (Backends s).

Definition set_Fall (x : Z) (s : t) : t :=
  mk (Name s) (Addr s) (VirtualHosts s) (Balance s) (CheckInterval s) x
     (Rise s) (ClientTimeout s) (ServerTimeout s) (DialTimeout s)
     (ErrorPages s) (Network s) (Backends s).

Definition set_Rise (x : Z) (s : t) : t :=
  mk (Name s) (Addr s) (VirtualHosts s) (Balance s) (CheckInterval s)
     (Fall s) x (ClientTimeout s) (ServerTimeout s) (DialTimeout s)
     (ErrorPages s) (Network s) (Backends s).

Definition set_Network (x : string) (s : t) : t :=
  mk (Name s) (Addr s) (VirtualHosts s) (Balance s) (CheckInterval s)
     (Fall s) (Rise s) (ClientTimeout s) (ServerTimeout s) (DialTimeout s)
     (ErrorPages s) x (Backends s).

Definition set_Backends (x : list BackendConfig.t) (s : t) : t :=
  mk (Name s) (Addr s) (VirtualHosts s) (Balance s) (CheckInterval s)
     (Fall s) (Rise s) (ClientTimeout s) (ServerTimeout s) (DialTimeout s)
     (ErrorPages s) (Network s) x.

(** [func (s ServiceConfig) Equal(other ServiceConfig) bool]:
    compare a service's settings, ignoring individual backends.
    [reflect.DeepEqual] on two values of this struct type is
    structural equality of the embedded records. *)
Definition Equal (s other : t) : bool :=
  let s := set_Backends [] s in
  let other := set_Backends [] other in
  let other :=
    if negb (String.eqb (Balance s) (Balance other)) then
      if String.eqb (Balance s) "" && String.eqb (Balance other) "RR"
      then set_Balance "" other
      else if String.eqb (Balance s) "RR" && String.eqb (Balance other) ""
      then set_Balance "RR" other
      else other
    else other in
  let s := if CheckInterval s =? 0 then set_CheckInterval 2000 s else s in
  let other :=
    if CheckInterval other =? 0 then set_CheckInterval 2000 other else other in
  let s := if Rise s =? 0 then set_Rise 2 s else s in
  let other := if Rise other =? 0 then set_Rise 2 other else other in
  let s := if Fall s =? 0 then set_Fall 2 s else s in
  let other := if Fall other =? 0 then set_Fall 2 other else other in
  let s := if String.eqb (Network s) "" then set_Network "tcp" s else s in
  let s := set_Backends [] s in
  let other := set_Backends [] other in
  bool_decide (s = other).

(** The inner loop of [DeepEqual], labelled [NEXT] in the source: scan
    [bs] for the first entry named like [a].  [true] stands for leaving
    the inner loop (by [break NEXT] or by exhausting [bs]), [false]
    for [return false]. *)
Fixpoint DeepEqual_next (a : BackendConfig.t) (bs : list BackendConfig.t)
  : bool :=
  match bs with
  | [] => true
  | b :: bs' =>
      if String.eqb (BackendConfig.Name a) (BackendConfig.Name b) then
        if BackendConfig.Equal a b then true else false
      else DeepEqual_next a bs'
  end.

(** The outer loop of [DeepEqual] over [s.Backends]. *)
Fixpoint DeepEqual_loop (xs bs : list BackendConfig.t) : bool :=
  match xs with
  | [] => true
  | a :: xs' => if DeepEqual_next a bs then DeepEqual_loop xs' bs else false
  end.

(** [func (s ServiceConfig) DeepEqual(other ServiceConfig) bool] *)
Definition DeepEqual (s other : t) : bool :=
  if negb (length (Backends s) =? length (Backends other))%nat then false
  else if negb (Equal s other) then false
  else DeepEqual_loop (Backends s) (Backends other).

End ServiceConfig.

(** ** Package main: backends *)

Module BackendStat.

(** Modelled from the spec: the statistics of a backend are a snapshot
    of its counters and of [up], next to the attributes that identify
    it.  The struct is declared in a source file that is not available. *)
Record t := mk {
  Name : string;
  Addr : string;
  CheckAddr : string;
  Up : bool;
  Weight : Z;
  Sent : Z;
  Rcvd : Z;
  Errors : Z;
  Conns : Z;
  Active : Z
}.

End BackendStat.

Module Backend.

(** Modelled from the spec: the [Backend] struct, [NewBackend],
    [Backend.Config] and [Backend.Stats] are declared in a source file
    that is not available.  The fields are the ones the service code
    reads and writes ([Name], [Addr], [Network], the counters, [up],
    [rwTimeout], [dialTimeout], [checkInterval]) together with the
    attributes the spec lists for a backend: dial address, optional
    check address, integer weight, network family. *)
Record t := mk {
  Name : string;
  Addr : string;
  CheckAddr : string;
  Weight : Z;
  Network : string;
  up : bool;
  Sent : Z;
  Rcvd : Z;
  Errors : Z;
  Conns : Z;
  Active : Z;
  HTTPActive : Z;
  rwTimeout : Z;
  dialTimeout : Z;
  checkInterval : Z
}.

#[global] Instance Backend_eq_dec : EqDecision t.
Proof. solve_decision. Defined.

Definition set_Errors (x : Z) (b : t) : t :=
  mk (Name b) (Addr b) (CheckAddr b) (Weight b) (Network b) (up b)
     (Sent b) (Rcvd b) x (Conns b) (Active b) (HTTPActive b)
     (rwTimeout b) (dialTimeout b) (checkInterval b).

(** The four assignments at the top of [Service.add]:
    [backend.up = true], [backend.rwTimeout = s.ServerTimeout],
    [backend.dialTimeout = s.DialTimeout],
    [backend.checkInterval = ...]. *)
Definition attach (rw dial check : Z) (b : t) : t :=
  mk (Name b) (Addr b) (CheckAddr b) (Weight b) (Network b) true
     (Sent b) (Rcvd b) (Errors b) (Conns b) (Active b) (HTTPActive b)
     rw dial check.

Definition set_Conns (x : Z) (b : t) : t :=
  mk (Name b) (Addr b) (CheckAddr b) (Weight b) (Network b) (up b)
     (Sent b) (Rcvd b) (Errors b) x (Active b) (HTTPActive b)
     (rwTimeout b) (dialTimeout b) (checkInterval b).

Definition set_HTTPActive (x : Z) (b : t) : t :=
  mk (Name b) (Addr b) (CheckAddr b) (Weight b) (Network b) (up b)
     (Sent b) (Rcvd b) (Errors b) (Conns b) (Active b) x
     (rwTimeout b) (dialTimeout b) (checkInterval b).

(** Modelled from the spec: [Backend.Config] returns the configuration
    attributes of the backend (the configuration JSON of a backend has
    name, address, check_address, weight and network). *)
Definition Config (b : t) : BackendConfig.t :=
  BackendConfig.mk (Name b) (Addr b) (CheckAddr b) (Weight b) (Network b).

(** Modelled from the spec: [Backend.Stats] returns a snapshot of the
    counters and of [up]. *)
Definition Stats (b : t) : BackendStat.t :=
  BackendStat.mk (Name b) (Addr b) (CheckAddr b) (up b) (Weight b)
    (Sent b) (Rcvd b) (Errors b) (Conns b) (Active b).

End Backend.

(** Modelled from the spec: [NewBackend] copies the configuration and
    fills in the documented defaults, weight 1 and network tcp; the
    counters start at zero and the backend is not yet up. *)
Definition NewBackend (cfg : BackendConfig.t) : Backend.t :=
  Backend.mk (BackendConfig.Name cfg) (BackendConfig.Addr cfg)
    (BackendConfig.CheckAddr cfg)
    (if BackendConfig.Weight cfg =? 0 then 1 else BackendConfig.Weight cfg)
    (if String.eqb (BackendConfig.Network cfg) "" then "tcp"%string
     else BackendConfig.Network cfg)
    false 0 0 0 0 0 0 0 0 0.

(** ** Effects *)

(** Network connections are identified by a number. *)
Definition Conn := nat.

(** An error value as the service code inspects it: its [Error()] text,
    and, when it implements [net.Error], the answer of [Temporary()]. *)
Record IOError := mkIOError {
  err_text : string;
  err_temporary : option bool
}.

Definition closed_text : string := "use of closed network connection".

(** [err, ok := err.(net.Error); ok && err.Temporary()] *)
Definition is_temporary (e : IOError) : bool :=
  match err_temporary e with Some true => true | _ => false end.

(** The log lines of the modelled functions, by format string. *)
Inductive LogMsg :=
| MsgAdding (backendNetwork backendAddr serviceName serviceAddr : string)
| MsgCannotUseNetwork (backendName backendNetwork : string)
| MsgRemoving (backendNetwork backendAddr serviceName serviceAddr : string)
| MsgInvalidBalance (balance : string)
| MsgConnecting (serviceName backendName : string)
| MsgNoBackend (serviceName : string)
| MsgIOError (e : IOError)
| MsgNoStateFile
| MsgNoChange
| MsgSavingError.

Inductive Event :=
| Printf (m : LogMsg)
| Debugf (m : LogMsg)
| Warnf (m : LogMsg)
| Errorf (m : LogMsg)
| Stop (b : Backend.t)
| Start (b : Backend.t)
| Proxy (b : Backend.t) (srvConn cliConn : Conn)
| Close (c : Conn)
| WriteFile (path : string) (data : list Byte.byte).

(** The two balancing methods a service can be given. *)
Inductive Balancer := roundRobin | leastConn.

(** ** Package main: services *)

Module ServiceStat.

Record t := mk {
  Name : string;
  Addr : string;
  VirtualHosts : option (list string);
  Backends : list BackendStat.t;
  Balance : string;
  CheckInterval : Z;
  Fall : Z;
  Rise : Z;
  ClientTimeout : Z;
  ServerTimeout : Z;
  DialTimeout : Z;
  Sent : Z;
  Rcvd : Z;
  Errors : Z;
  Conns : Z;
  Active : Z;
  HTTPActive : Z;
  HTTPConns : Z;
  HTTPErrors : Z
}.

End ServiceStat.

Module Service.

(** The fields of [Service] that hold operating-system resources
    (listeners, dialer, reverse proxy, error pages cache) are left out;
    [errPagesCfg] keeps the configured error pages. *)
Record t := mk {
  Name : string;
  Addr : string;
  VirtualHosts : option (list string);
  Backends : list Backend.t;
  Balance : string;
  CheckInterval : Z;
  Fall : Z;
  Rise : Z;
  ClientTimeout : Z;
  ServerTimeout : Z;
  DialTimeout : Z;
  Sent : Z;
  Rcvd : Z;
  Errors : Z;
  HTTPConns : Z;
  HTTPErrors : Z;
  HTTPActive : Z;
  Network : string;
  next : option Balancer;
  lastBackend : Z;
  lastCount : Z;
  errPagesCfg : option (gmap string (option (list Z)))
}.

Definition set_Backends (x : list Backend.t) (s : t) : t :=
  mk (Name s) (Addr s) (VirtualHosts s) x (Balance s) (CheckInterval s)
     (Fall s) (Rise s) (ClientTimeout s) (ServerTimeout s) (DialTimeout s)
     (Sent s) (Rcvd s) (Errors s) (HTTPConns s) (HTTPErrors s) (HTTPActive s)
     (Network s) (next s) (lastBackend s) (lastCount s) (errPagesCfg s).

Definition set_CheckInterval (x : Z) (s : t) : t :=
  mk (Name s) (Addr s) (VirtualHosts s) (Backends s) (Balance s) x
     (Fall s) (Rise s) (ClientTimeout s) (ServerTimeout s) (DialTimeout s)
     (Sent s) (Rcvd s) (Errors s) (HTTPConns s) (HTTPErrors s) (HTTPActive s)
     (Network s) (next s) (lastBackend s) (lastCount s) (errPagesCfg s).

Definition set_Fall (x : Z) (s : t) : t :=
  mk (Name s) (Addr s) (VirtualHosts s) (Backends s) (Balance s)
     (CheckInterval s) x (Rise s) (ClientTimeout s) (ServerTimeout s)
     (DialTimeout s) (Sent s) (Rcvd s) (Errors s) (HTTPConns s) (HTTPErrors s)
     (HTTPActive s) (Network s) (next s) (lastBackend s) (lastCount s)
     (errPagesCfg s).

Definition set_Rise (x : Z) (s : t) : t :=
  mk (Name s) (Addr s) (VirtualHosts s) (Backends s) (Balance s)
     (CheckInterval s) (Fall s) x (ClientTimeout s) (ServerTimeout s)
     (DialTimeout s) (Sent s) (Rcvd s) (Errors s) (HTTPConns s) (HTTPErrors s)
     (HTTPActive s) (Network s) (next s) (lastBackend s) (lastCount s)
     (errPagesCfg s).

Definition set_ClientTimeout (x : Z) (s : t) : t :=
  mk (Name s) (Addr s) (VirtualHosts s) (Backends s) (Balance s)
     (CheckInterval s) (Fall s) (Rise s) x (ServerTimeout s)
     (DialTimeout s) (Sent s) (Rcvd s) (Errors s) (HTTPConns s) (HTTPErrors s)
     (HTTPActive s) (Network s) (next s) (lastBackend s) (lastCount s)
     (errPagesCfg s).

Definition set_ServerTimeout (x : Z) (s : t) : t :=
  mk (Name s) (Addr s) (VirtualHosts s) (Backends s) (Balance s)
     (CheckInterval s) (Fall s) (Rise s) (ClientTimeout s) x
     (DialTimeout s) (Sent s) (Rcvd s) (Errors s) (HTTPConns s) (HTTPErrors s)
     (HTTPActive s) (Network s) (next s) (lastBackend s) (lastCount s)
     (errPagesCfg s).

Definition set_DialTimeout (x : Z) (s : t) : t :=
  mk (Name s) (Addr s) (VirtualHosts s) (Backends s) (Balance s)
     (CheckInterval s) (Fall s) (Rise s) (ClientTimeout s) (ServerTimeout s)
     x (Sent s) (Rcvd s) (Errors s) (HTTPConns s) (HTTPErrors s)
     (HTTPActive s) (Network s) (next s) (lastBackend s) (lastCount s)
     (errPagesCfg s).

Definition set_Sent (x : Z) (s : t) : t :=
  mk (Name s) (Addr s) (VirtualHosts s) (Backends s) (Balance s)
     (CheckInterval s) (Fall s) (Rise s) (ClientTimeout s) (ServerTimeout s)
     (DialTimeout s) x (Rcvd s) (Errors s) (HTTPConns s) (HTTPErrors s)
     (HTTPActive s) (Network s) (next s) (lastBackend s) (lastCount s)
     (errPagesCfg s).

Definition set_Rcvd (x : Z) (s : t) : t :=
  mk (Name s) (Addr s) (VirtualHosts s) (Backends s) (Balance s)
     (CheckInterval s) (Fall s) (Rise s) (ClientTimeout s) (ServerTimeout s)
     (DialTimeout s) (Sent s) x (Errors s) (HTTPConns s) (HTTPErrors s)
     (HTTPActive s) (Network s) (next s) (lastBackend s) (lastCount s)
     (errPagesCfg s).

Definition set_Errors (x : Z) (s : t) : t :=
  mk (Name s) (Addr s) (VirtualHosts s) (Backends s) (Balance s)
     (CheckInterval s) (Fall s) (Rise s) (ClientTimeout s) (ServerTimeout s)
     (DialTimeout s) (Sent s) (Rcvd s) x (HTTPConns s) (HTTPErrors s)
     (HTTPActive s) (Network s) (next s) (lastBackend s) (lastCount s)
     (errPagesCfg s).

Definition set_Network (x : string) (s : t) : t :=
  mk (Name s) (Addr s) (VirtualHosts s) (Backends s) (Balance s)
     (CheckInterval s) (Fall s) (Rise s) (ClientTimeout s) (ServerTimeout s)
     (DialTimeout s) (Sent s) (Rcvd s) (Errors s) (HTTPConns s) (HTTPErrors s)
     (HTTPActive s) x (next s) (lastBackend s) (lastCount s)
     (errPagesCfg s).

Definition set_next (x : option Balancer) (s : t) : t :=
  mk (Name s) (Addr s) (VirtualHosts s) (Backends s) (Balance s)
     (CheckInterval s) (Fall s) (Rise s) (ClientTimeout s) (ServerTimeout s)
     (DialTimeout s) (Sent s) (Rcvd s) (Errors s) (HTTPConns s) (HTTPErrors s)
     (HTTPActive s) (Network s) x (lastBackend s) (lastCount s)
     (errPagesCfg s).

(** The names of a backend list, in list order. *)
Definition names (bs : list Backend.t) : list string := map Backend.Name bs.

(** [for i, b := range s.Backends { if b.Name == name { ... } }]: the
    first position holding a backend of that name, with the backend. *)
Definition find_name (name : string) (bs : list Backend.t)
  : option (nat * Backend.t) :=
  list_find (fun b => Backend.Name b = name) bs.

(** [func (s *Service) add(backend *Backend)]: add or replace a backend
    in this service. *)
Definition add (s : t) (backend : Backend.t) : option (t * list Event) :=
  let log1 := Printf (MsgAdding (Backend.Network backend)
                        (Backend.Addr backend) (Name s) (Addr s)) in
  let backend :=
    Backend.attach (ServerTimeout s) (DialTimeout s)
      (ms_to_duration (CheckInterval s)) backend in
  sn ← slice_to 3 (Network s);
  bn ← slice_to 3 (Backend.Network backend);
  let log2 :=
    if negb (String.eqb sn bn)
    then [Errorf (MsgCannotUseNetwork (Backend.Name backend)
                    (Backend.Network backend))]
    else [] in
  match find_name (Backend.Name backend) (Backends s) with
  | Some (i, b) =>
      Some (set_Backends (<[i := backend]> (Backends s)) s,
            log1 :: log2 ++ [Stop b; Start backend])
  | None =>
      Some (set_Backends (Backends s ++ [backend]) s,
            log1 :: log2 ++ [Start backend])
  end.

(** [func (s *Service) remove(name string) bool]: remove a backend by
    name.  The removed slot receives the last element and the slice is
    shortened by one. *)
Definition remove (s : t) (name : string) : option (t * list Event * bool) :=
  match find_name name (Backends s) with
  | Some (i, b) =>
      let last := (length (Backends s) - 1)%nat in
      lastb ← Backends s !! last;
      Some (set_Backends (take last (<[i := lastb]> (Backends s))) s,
            [Printf (MsgRemoving (Backend.Network b) (Backend.Addr b)
                       (Name s) (Addr s));
             Stop b],
            true)
  | None => Some (s, [], false)
  end.

(** [for _, b := range cfg.Backends { s.add(NewBackend(b)) }] *)
Fixpoint add_all (s : t) (cfgs : list BackendConfig.t)
  : option (t * list Event) :=
  match cfgs with
  | [] => Some (s, [])
  | c :: cfgs' =>
      '(s1, e1) ← add s (NewBackend c);
      '(s2, e2) ← add_all s1 cfgs';
      Some (s2, e1 ++ e2)
  end.

(** [func (s *Service) UpdateDefaults(cfg client.ServiceConfig) error]:
    the second component is the returned error, [None] for nil. *)
Definition UpdateDefaults (s : t) (cfg : ServiceConfig.t)
  : t * option string :=
  let s := if negb (ServiceConfig.CheckInterval cfg =? 0)
           then set_CheckInterval (ServiceConfig.CheckInterval cfg) s else s in
  let s := if negb (ServiceConfig.Fall cfg =? 0)
           then set_Fall (ServiceConfig.Fall cfg) s else s in
  let s := if negb (ServiceConfig.Rise cfg =? 0)
           then set_Rise (ServiceConfig.Rise cfg) s else s in
  let s := if negb (ServiceConfig.ClientTimeout cfg =? 0)
           then set_ClientTimeout
                  (ms_to_duration (ServiceConfig.ClientTimeout cfg)) s
           else s in
  let s := if negb (ServiceConfig.ServerTimeout cfg =? 0)
           then set_ServerTimeout
                  (ms_to_duration (ServiceConfig.ServerTimeout cfg)) s
           else s in
  let s := if negb (ServiceConfig.DialTimeout cfg =? 0)
           then set_DialTimeout
                  (ms_to_duration (ServiceConfig.DialTimeout cfg)) s
           else s in
  (s, None).

(** One round of the loop in [Stats]: append the backend's statistics
    and add its counters to the totals. *)
Definition Stats_add (stats : ServiceStat.t) (b : Backend.t) : ServiceStat.t :=
  ServiceStat.mk (ServiceStat.Name stats) (ServiceStat.Addr stats)
    (ServiceStat.VirtualHosts stats)
    (ServiceStat.Backends stats ++ [Backend.Stats b])
    (ServiceStat.Balance stats) (ServiceStat.CheckInterval stats)
    (ServiceStat.Fall stats) (ServiceStat.Rise stats)
    (ServiceStat.ClientTimeout stats) (ServiceStat.ServerTimeout stats)
    (ServiceStat.DialTimeout stats)
    (wrap64 (ServiceStat.Sent stats + Backend.Sent b))
    (wrap64 (ServiceStat.Rcvd stats + Backend.Rcvd b))
    (wrap64 (ServiceStat.Errors stats + Backend.Errors b))
    (wrap64 (ServiceStat.Conns stats + Backend.Conns b))
    (wrap64 (ServiceStat.Active stats + Backend.Active b))
    (ServiceStat.HTTPActive stats) (ServiceStat.HTTPConns stats)
    (ServiceStat.HTTPErrors stats).

(** [func (s *Service) Stats() ServiceStat]: the struct literal leaves
    [Backends], [Errors], [Conns] and [Active] at their zero values. *)
Definition Stats (s : t) : ServiceStat.t :=
  let stats :=
    ServiceStat.mk (Name s) (Addr s) (VirtualHosts s) [] (Balance s)
      (CheckInterval s) (Fall s) (Rise s)
      (duration_to_ms (ClientTimeout s)) (duration_to_ms (ServerTimeout s))
      (duration_to_ms (DialTimeout s))
      (Sent s) (Rcvd s) 0 0 0
      (HTTPActive s) (HTTPConns s) (HTTPErrors s) in
  fold_left Stats_add (Backends s) stats.

(** [func (s *Service) Config() client.ServiceConfig] *)
Definition Config (s : t) : ServiceConfig.t :=
  ServiceConfig.mk (Name s) (Addr s) (VirtualHosts s) (Balance s)
    (CheckInterval s) (Fall s) (Rise s)
    (duration_to_ms (ClientTimeout s)) (duration_to_ms (ServerTimeout s))
    (duration_to_ms (DialTimeout s))
    (errPagesCfg s) (Network s)
    (map Backend.Config (Backends s)).

(** *** The TCP connect walk *)

(** The outcome of [s.dialer.Dial]. *)
Inductive DialResult := DialOk (srvConn : Conn) | DialErr (e : IOError).

(** The network is outside the program: a dialer answers the [k]-th
    attempt of a walk, given the network and the address dialled. *)
Definition Dialer := nat -> string -> string -> DialResult.

(** The loop of [connectTCP] over the candidates.  A candidate is a
    pointer to one of the service's backends, identified here by its
    position in [s.Backends], so that a counter update through the
    pointer is seen by every other holder of it.  The boolean tells
    whether a dial succeeded, after which the function returns. *)
Fixpoint connectTCP_walk (dial : Dialer) (cliConn : Conn) (k : nat) (s : t)
  (backends : list nat) : option (t * list Event * bool) :=
  match backends with
  | [] => Some (s, [], false)
  | p :: rest =>
      b ← Backends s !! p;
      match dial k (Backend.Network b) (Backend.Addr b) with
      | DialErr e =>
          let b' := Backend.set_Errors (wrap64 (Backend.Errors b + 1)) b in
          '(s', ev, ok) ←
            connectTCP_walk dial cliConn (S k)
              (set_Backends (<[p := b']> (Backends s)) s) rest;
          Some (s', Errorf (MsgConnecting (Name s) (Backend.Name b)) :: ev, ok)
      | DialOk srvConn => Some (s, [Proxy b srvConn cliConn], true)
      end
  end.

(** [func (s *Service) connectTCP(cliConn net.Conn)], with the list
    returned by [s.next()] as [backends].  Calling a nil [next] panics. *)
Definition connectTCP (dial : Dialer) (s : t) (backends : list nat)
  (cliConn : Conn) : option (t * list Event) :=
  _ ← next s;
  '(s', ev, ok) ← connectTCP_walk dial cliConn 0 s backends;
  if ok : bool then Some (s', ev)
  else Some (s', ev ++ [Errorf (MsgNoBackend (Name s)); Close cliConn]).

(** *** The UDP datagram loop *)

(** What the outside world answers during one round of the loop in
    [runUDP]: the result of [ReadFromUDP], the backend chosen by
    [s.udpRoundRobin()] (a balancer defined elsewhere; its bookkeeping
    in [lastBackend] and [lastCount] is not followed), and the result of
    [WriteTo]. *)
Record Datagram := mkDatagram {
  rd_n : Z;
  rd_err : option IOError;
  rr : option Backend.t;
  wr_n : Z;
  wr_err : option IOError
}.

(** How a round of the loop ends: with the next round, or with [return]. *)
Inductive Loop := Continue | Return.

(** The part of the loop body after the read error handling. *)
Definition runUDP_forward (s : t) (d : Datagram) (ev : list Event)
  : t * list Event * Loop :=
  if rd_n d =? 0 then (s, ev, Continue)
  else
    let s := set_Rcvd (wrap64 (Rcvd s + rd_n d)) s in
    match rr d with
    | None => (s, ev, Continue)
    | Some backend =>
        match wr_err d with
        | Some e =>
            if is_temporary e
            then (s, ev ++ [Warnf (MsgIOError e)], Continue)
            else (set_Errors (wrap64 (Errors s + 1)) s,
                  ev ++ [Errorf (MsgIOError e)], Continue)
        | None => (set_Sent (wrap64 (Sent s + wr_n d)) s, ev, Continue)
        end
    end.

(** One round of the loop in [runUDP]. *)
Definition runUDP_round (s : t) (d : Datagram) : t * list Event * Loop :=
  match rd_err d with
  | Some e =>
      if String.eqb (err_text e) closed_text then (s, [], Return)
      else if is_temporary e then runUDP_forward s d [Warnf (MsgIOError e)]
      else (set_Errors (wrap64 (Errors s + 1)) s,
            [Errorf (MsgIOError e)], Return)
  | None => runUDP_forward s d []
  end.

(** [func (s *Service) runUDP()] against a finite script of answers.
    [Continue] in the result means that the loop is waiting in
    [ReadFromUDP] for input the script does not have. *)
Fixpoint runUDP (s : t) (script : list Datagram) : t * list Event * Loop :=
  match script with
  | [] => (s, [], Continue)
  | d :: rest =>
      match runUDP_round s d with
      | (s1, e1, Return) => (s1, e1, Return)
      | (s1, e1, Continue) =>
          let '(s2, e2, l) := runUDP s1 rest in (s2, e1 ++ e2, l)
      end
  end.

(** *** Looking up and dialling a backend *)

(** [func (s *Service) get(name string) *Backend]; [None] is nil. *)
Definition get (s : t) (name : string) : option Backend.t :=
  snd <$> find_name name (Backends s).

(** [for _, b := range s.Backends { if b.Addr == addr { ... break } }] *)
Definition find_addr (addr : string) (bs : list Backend.t)
  : option (nat * Backend.t) :=
  list_find (fun b => Backend.Addr b = addr) bs.

(** What [Dial] returns: the counting connection, which holds pointers
    into the backend at the given position, or one of its two errors. *)
Inductive DialReturn :=
| DialConn (srvConn : Conn) (backend : nat)
| DialErrorNoBackend (addr : string)
| DialErrorWrapped (e : IOError).

(** [func (s *Service) Dial(nw, addr string) (net.Conn, error)].
    [isTCP] tells whether a connection is a [*net.TCPConn]; the type
    assertion on any other connection panics. *)
Definition Dial (dial : Dialer) (isTCP : Conn -> bool) (s : t)
  (nw addr : string) : option (t * list Event * DialReturn) :=
  match find_addr addr (Backends s) with
  | None => Some (s, [], DialErrorNoBackend addr)
  | Some (i, backend) =>
      match dial 0%nat nw (Backend.Addr backend) with
      | DialErr e =>
          let b' :=
            Backend.set_Errors (wrap64 (Backend.Errors backend + 1)) backend in
          Some (set_Backends (<[i := b']> (Backends s)) s,
                [Errorf (MsgConnecting (Name s) (Backend.Name backend))],
                DialErrorWrapped e)
      | DialOk srvConn =>
          if isTCP srvConn then
            let b1 :=
              Backend.set_Conns (wrap64 (Backend.Conns backend + 1)) backend in
            let b2 :=
              Backend.set_HTTPActive (wrap64 (Backend.HTTPActive b1 + 1)) b1 in
            Some (set_Backends (<[i := b2]> (Backends s)) s, [],
                  DialConn srvConn i)
          else None
      end
  end.

(** *** Starting and stopping *)

(** The two listener fields of a service; [None] is nil. *)
Record Listeners := mkListeners {
  tcpListener : option Conn;
  udpListener : option Conn
}.

(** The goroutines the service starts. *)
Inductive Task :=
| TaskRunTCP
| TaskRunUDP
| TaskConnectTCP (cliConn : Conn).

(** What [start], [stop] and [runTCP] do besides changing the service:
    an event of the kinds above, a log line of their own, or a
    goroutine. *)
Inductive Action :=
| Ev (e : Event)
| StartingTCP (name addr : string)
| StartingUDP (name addr : string)
| StoppingListener (name network addr : string)
| Println (e : IOError)
| Go (t : Task).

(** The outcome of [newTimeoutListener]: both of its failures return a
    nil listener with the error. *)
Inductive TCPBind := TCPBound (l : Conn) | TCPBindErr (e : IOError).

(** The outcome of [net.ResolveUDPAddr] followed by [net.ListenUDP]. *)
Inductive UDPBind :=
| UDPBound (l : Conn)
| UDPResolveErr (e : IOError)
| UDPListenErr (e : IOError).

(** The errors [start] returns. *)
Inductive StartError :=
| StartIOError (e : IOError)
| UnknownNetwork (network : string).

(** [case "tcp", "tcp4", "tcp6":] *)
Definition is_tcp_network (n : string) : bool :=
  String.eqb n "tcp" || String.eqb n "tcp4" || String.eqb n "tcp6".

(** [case "udp", "udp4", "udp6":] *)
Definition is_udp_network (n : string) : bool :=
  String.eqb n "udp" || String.eqb n "udp4" || String.eqb n "udp6".

(** [func (s *Service) start() (err error)], with the answers of the
    operating system to the two ways of binding.  Replacing a nil
    backend slice by an empty one is not visible on lists. *)
Definition start (tcp : TCPBind) (udp : UDPBind) (s : t) (ls : Listeners)
  : Listeners * list Action * option StartError :=
  if is_tcp_network (Network s) then
    match tcp with
    | TCPBindErr e =>
        (mkListeners None (udpListener ls),
         [StartingTCP (Name s) (Addr s)], Some (StartIOError e))
    | TCPBound l =>
        (mkListeners (Some l) (udpListener ls),
         [StartingTCP (Name s) (Addr s); Go TaskRunTCP], None)
    end
  else if is_udp_network (Network s) then
    match udp with
    | UDPResolveErr e =>
        (ls, [StartingUDP (Name s) (Addr s)], Some (StartIOError e))
    | UDPListenErr e =>
        (mkListeners (tcpListener ls) None,
         [StartingUDP (Name s) (Addr s)], Some (StartIOError e))
    | UDPBound l =>
        (mkListeners (tcpListener ls) (Some l),
         [StartingUDP (Name s) (Addr s); Go TaskRunUDP], None)
    end
  else (ls, [], Some (UnknownNetwork (Network s))).

(** [func (s *Service) stop()], with the answer of the operating system
    to closing a listener. *)
Definition stop (closeErr : option IOError) (s : t) (ls : Listeners)
  : list Action :=
  let log := StoppingListener (Name s) (Network s) (Addr s) in
  let stops := map (fun b => Ev (Stop b)) (Backends s) in
  let close (l : option Conn) :=
    match l with
    | None => []
    | Some c =>
        Ev (Close c)
        :: match closeErr with Some e => [Println e] | None => [] end
    end in
  log :: stops
  ++ (if is_tcp_network (Network s) then close (tcpListener ls)
      else if is_udp_network (Network s) then close (udpListener ls)
      else []).

(** The outcome of [s.tcpListener.Accept()]. *)
Inductive AcceptResult := Accepted (c : Conn) | AcceptErr (e : IOError).

(** [func (s *Service) runTCP()] against a finite script of answers of
    [Accept].  [Continue] in the result means that the loop is waiting
    in [Accept] for input the script does not have. *)
Fixpoint runTCP (script : list AcceptResult) : list Action * Loop :=
  match script with
  | [] => ([], Continue)
  | Accepted c :: rest =>
      let '(acts, l) := runTCP rest in (Go (TaskConnectTCP c) :: acts, l)
  | AcceptErr e :: rest =>
      if is_temporary e then
        let '(acts, l) := runTCP rest in (Ev (Warnf (MsgIOError e)) :: acts, l)
      else ([], Return)
  end.

End Service.

(** [func NewService(cfg client.ServiceConfig) *Service]: create a
    service from a config struct. *)
Definition NewService (cfg : ServiceConfig.t)
  : option (Service.t * list Event) :=
  let s :=
    Service.mk (ServiceConfig.Name cfg) (ServiceConfig.Addr cfg)
      (ServiceConfig.VirtualHosts cfg) [] (ServiceConfig.Balance cfg)
      (ServiceConfig.CheckInterval cfg) (ServiceConfig.Fall cfg)
      (ServiceConfig.Rise cfg)
      (ms_to_duration (ServiceConfig.ClientTimeout cfg))
      (ms_to_duration (ServiceConfig.ServerTimeout cfg))
      (ms_to_duration (ServiceConfig.DialTimeout cfg))
      0 0 0 0 0 0
      (ServiceConfig.Network cfg) None 0 0 (ServiceConfig.ErrorPages cfg) in
  let s := if Service.CheckInterval s =? 0
           then Service.set_CheckInterval 2000 s else s in
  let s := if Service.Rise s =? 0 then Service.set_Rise 2 s else s in
  let s := if Service.Fall s =? 0 then Service.set_Fall 2 s else s in
  let s := if String.eqb (Service.Network s) ""
           then Service.set_Network "tcp" s else s in
  '(s, ev) ← Service.add_all s (ServiceConfig.Backends cfg);
  if String.eqb (ServiceConfig.Balance cfg) "RR"
     || String.eqb (ServiceConfig.Balance cfg) ""
  then Some (Service.set_next (Some roundRobin) s, ev)
  else if String.eqb (ServiceConfig.Balance cfg) "LC"
  then Some (Service.set_next (Some leastConn) s, ev)
  else Some (s, ev ++ [Printf (MsgInvalidBalance (ServiceConfig.Balance cfg))]).

(** ** The state file *)

#[global] Instance byte_eq_dec : EqDecision Byte.byte := Byte.byte_eq_dec.

(** The files of the machine, by path. *)
Abbreviation FileSystem := (gmap string (list Byte.byte)).

(** [lastCfg, _ := ioutil.ReadFile(path)]: the error is dropped, and
    the data is nil when the file cannot be read. *)
Definition ReadFile (fs : FileSystem) (path : string) : list Byte.byte :=
  default [] (fs !! path).

(** The outcome of [ioutil.WriteFile]: success, or an error that leaves
    the file with some contents or absent. *)
Inductive WriteResult := WriteOk | WriteErr (rest : option (list Byte.byte)).

(** [func writeStateConfig()], with the global [stateConfig], the bytes
    of [marshal(Registry.Config())] as [cfg], the answer of the file
    system to a write, and the files. *)
Definition writeStateConfig (stateConfig : string) (cfg : list Byte.byte)
  (wr : WriteResult) (fs : FileSystem) : FileSystem * list Event :=
  if String.eqb stateConfig "" then (fs, [Debugf MsgNoStateFile])
  else if (length cfg =? 0)%nat then (fs, [])
  else
    let lastCfg := ReadFile fs stateConfig in
    if bool_decide (cfg = lastCfg) then (fs, [Printf MsgNoChange])
    else
      match wr with
      | WriteOk => (<[stateConfig := cfg]> fs, [WriteFile stateConfig cfg])
      | WriteErr rest =>
          (match rest with
           | Some data => <[stateConfig := data]> fs
           | None => delete stateConfig fs
           end,
           [WriteFile stateConfig cfg; Printf MsgSavingError])
      end.

(** Whether a trace contains a write to the file system. *)
Definition is_write (e : Event) : bool :=
  match e with WriteFile _ _ => true | _ => false end.


(** ** Loading the configuration *)

(** What [loadConfig] does: its log lines, and the calls of
    [Registry.UpdateConfig]. *)
Inductive LoadAction (C : Type) :=
| ErrorReading (path : string)
| ConfigError (path : string)
| LoadedFrom (path : string)
| UpdateConfig (cfg : C)
| UnableToLoad (err : string).

Arguments ErrorReading {C} path.
Arguments ConfigError {C} path.
Arguments LoadedFrom {C} path.
Arguments UpdateConfig {C} cfg.
Arguments UnableToLoad {C} err.

(** The body of the loop in [loadConfig] for one path.  [unmarshal] is
    [json.Unmarshal] into a [client.Config], [None] being its error;
    [update] is the error [Registry.UpdateConfig] returns, [None] being
    nil.  A file that is not in the file system cannot be read. *)
Definition loadConfig_path {C : Type} (unmarshal : list Byte.byte -> option C)
  (update : C -> option string) (fs : FileSystem) (cfgPath : string)
  : list (LoadAction C) :=
  if String.eqb cfgPath "" then []
  else
    match fs !! cfgPath with
    | None => [ErrorReading cfgPath]
    | Some cfgData =>
        match unmarshal cfgData with
        | None => [ConfigError cfgPath]
        | Some cfg =>
            LoadedFrom cfgPath :: UpdateConfig cfg
            :: match update cfg with
               | Some err => [UnableToLoad err]
               | None => []
               end
        end
    end.

(** [func loadConfig()], with the globals [stateConfig] and
    [defaultConfig]:
    [for _, cfgPath := range []string{stateConfig, defaultConfig}].
    The registry answers the first and the second call of
    [UpdateConfig] with [update1] and [update2]. *)
Definition loadConfig {C : Type} (unmarshal : list Byte.byte -> option C)
  (update1 update2 : C -> option string) (stateConfig defaultConfig : string)
  (fs : FileSystem) : list (LoadAction C) :=
  loadConfig_path unmarshal update1 fs stateConfig
  ++ loadConfig_path unmarshal update2 fs defaultConfig.

(** * Notions used in the statements *)

(** ** Traces *)

(** The backend life-cycle events of a trace, in order. *)
Definition lifecycle (ev : list Event) : list Event :=
  List.filter
    (fun e => match e with Stop _ | Start _ => true | _ => false end) ev.

(** ** Well-formed and reachable services *)




(** ** Counting *)

(** The sum a counter of [Stats] holds after the loop: the backends'
    values added one by one, with wrap-around, to the starting value. *)
Definition total (f : Backend.t -> Z) (start : Z) (bs : list Backend.t) : Z :=
  fold_left (fun acc b => wrap64 (acc + f b)) bs start.

(** One more error on the backend at position [p]. *)
Definition count_error (bs : list Backend.t) (p : nat) : list Backend.t :=
  match bs !! p with
  | Some b => <[p := Backend.set_Errors (wrap64 (Backend.Errors b + 1)) b]> bs
  | None => bs
  end.

(** One more error for every entry of [ps], repetitions included. *)
Definition count_errors (bs : list Backend.t) (ps : list nat)
  : list Backend.t :=
  fold_left count_error ps bs.

(** The log lines of a walk in which every dial of [ps] failed. *)
Definition dial_error_log (s : Service.t) (ps : list nat) : list Event :=
  map (fun p =>
         Errorf (MsgConnecting (Service.Name s)
                   (default ""%string
                      (Backend.Name <$> Service.Backends s !! p)))) ps.

(** Whether a round of the datagram loop gets as far as [WriteTo]: the
    read did not end the loop, the datagram is not empty and the
    balancer gave a backend. *)
Definition reaches_send (d : Service.Datagram) : bool :=
  match Service.rd_err d with
  | None => true
  | Some e => negb (String.eqb (err_text e) closed_text) && is_temporary e
  end
  && negb (Service.rd_n d =? 0)
  && match Service.rr d with Some _ => true | None => false end.

(** ** Example values *)

(** A pair of configurations that differ only in a defaulted field: the
    first leaves the network empty, the second spells the default out. *)
Definition cfg_default_network : ServiceConfig.t :=
  ServiceConfig.mk "web" "127.0.0.1:8080" None "RR" 2000 2 2 0 0 0 None "" [].

Definition cfg_tcp_network : ServiceConfig.t :=
  ServiceConfig.mk "web" "127.0.0.1:8080" None "RR" 2000 2 2 0 0 0 None
    "tcp" [].

(** The same configuration with every defaulted setting left out. *)
Definition cfg_all_defaults : ServiceConfig.t :=
  ServiceConfig.mk "web" "127.0.0.1:8080" None "" 0 0 0 0 0 0 None "tcp" [].

(** A configuration with one backend. *)
Definition cfg_one_backend (name addr : string) : ServiceConfig.t :=
  ServiceConfig.set_Backends [BackendConfig.mk name addr "" 1 "tcp"]
    cfg_tcp_network.

(** A configuration with two backends, one of them listed twice, and a
    client timeout beyond what a duration can hold. *)
Definition cfg_web : ServiceConfig.t :=
  ServiceConfig.mk "web" "127.0.0.1:8080" None "" 0 0 0 9223372036855 5 0
    None ""
    [BackendConfig.mk "b1" "10.0.0.1:80" "" 0 "";
     BackendConfig.mk "b2" "10.0.0.2:80" "10.0.0.2:81" 3 "tcp";
     BackendConfig.mk "b1" "10.0.0.3:80" "" 2 "tcp4"].

(** The service [NewService] builds from [cfg_web]. *)
Definition web_service : Service.t :=
  Service.mk "web" "127.0.0.1:8080" None
    [Backend.mk "b1" "10.0.0.3:80" "" 2 "tcp4" true 0 0 0 0 0 0
       5000000 0 2000000000;
     Backend.mk "b2" "10.0.0.2:80" "10.0.0.2:81" 3 "tcp" true 0 0 0 0 0 0
       5000000 0 2000000000]
    "" 2000 2 2 (-9223372036854551616) 5000000 0 0 0 0 0 0 0 "tcp"
    (Some roundRobin) 0 0 None.


(** A backend on the other network family. *)
Definition udp_backend : Backend.t :=
  NewBackend (BackendConfig.mk "b3" "10.0.0.4:53" "" 1 "udp").

(** A UDP service without backends, as [NewService] builds it. *)
Definition udp_service : Service.t :=
  Service.mk "dns" "127.0.0.1:5353" None [] "RR" 2000 2 2 0 0 0 0 0 0 0 0 0
    "udp" (Some roundRobin) 0 0 None.

(** A read error that is neither a shutdown nor temporary. *)
Definition read_failure : Service.Datagram :=
  Service.mkDatagram 0
    (Some (mkIOError "read udp: connection refused" (Some false))) None 0 None.

(** A datagram of 12 bytes whose forwarding fails for good. *)
Definition send_failure : Service.Datagram :=
  Service.mkDatagram 12 None (Some udp_backend) 0
    (Some (mkIOError "write udp: network is unreachable" (Some false))).

(** A datagram of 12 bytes whose forwarding fails for the moment. *)
Definition send_retry : Service.Datagram :=
  Service.mkDatagram 12 None (Some udp_backend) 0
    (Some (mkIOError "write udp: no buffer space available" (Some true))).

(** A datagram of 30 bytes that is forwarded in full. *)
Definition send_ok : Service.Datagram :=
  Service.mkDatagram 30 None (Some udp_backend) 30 None.

(** A dialer that never gets through. *)
Definition dial_refused : Service.Dialer :=
  fun _ _ _ => Service.DialErr (mkIOError "connection refused" (Some false)).

(** The bytes of a small configuration document. *)
Definition cfg_bytes : list Byte.byte :=
  [Byte.x7b; Byte.x7d].

(** A file system holding that document as the state file. *)
Definition fs_saved : FileSystem := {[ "state.json"%string := cfg_bytes ]}.

(** ** Notions used for the comparison functions *)

(** A backend configuration with its defaults filled in, as
    [BackendConfig.Equal] fills them in on both sides. *)
Definition backend_defaults (b : BackendConfig.t) : BackendConfig.t :=
  BackendConfig.mk (BackendConfig.Name b) (BackendConfig.Addr b)
    (BackendConfig.CheckAddr b)
    (if BackendConfig.Weight b =? 0 then 1 else BackendConfig.Weight b)
    (if String.eqb (BackendConfig.Network b) "" then "tcp"%string
     else BackendConfig.Network b).

(** A number, or the default in place of zero. *)
Definition default_to (d x : Z) : Z := if x =? 0 then d else x.

(** Two balance settings that [ServiceConfig.Equal] does not tell
    apart. *)
Definition same_balance (a b : string) : Prop :=
  a = b \/ (a = ""%string /\ b = "RR"%string)
  \/ (a = "RR"%string /\ b = ""%string).

(** The names of a list of backend configurations. *)
Definition config_names (cs : list BackendConfig.t) : list string :=
  map BackendConfig.Name cs.

(** ** Notions used for building services *)

(** The balancing method [NewService] selects for a balance setting;
    [None] is the nil function an unknown setting leaves behind. *)
Definition balancer_of (balance : string) : option Balancer :=
  if String.eqb balance "RR" || String.eqb balance "" then Some roundRobin
  else if String.eqb balance "LC" then Some leastConn
  else None.

(** Timeouts in milliseconds whose duration in nanoseconds fits 64
    bits. *)
Definition ms_range (t : Z) : Prop :=
  - 9223372036854 <= t <= 9223372036854.

(** A backend configuration that spells its defaults out. *)
Definition backend_config_normal (c : BackendConfig.t) : Prop :=
  BackendConfig.Weight c <> 0 /\
  (3 <= String.length (BackendConfig.Network c))%nat.

(** A service configuration that spells its defaults out, lists every
    backend once, and has timeouts that fit. *)
Record config_normal (cfg : ServiceConfig.t) : Prop := mk_config_normal {
  normal_CheckInterval : ServiceConfig.CheckInterval cfg <> 0;
  normal_Rise : ServiceConfig.Rise cfg <> 0;
  normal_Fall : ServiceConfig.Fall cfg <> 0;
  normal_Network : ServiceConfig.Network cfg <> ""%string;
  normal_family :
    ServiceConfig.Backends cfg <> [] ->
    (3 <= String.length (ServiceConfig.Network cfg))%nat;
  normal_ClientTimeout : ms_range (ServiceConfig.ClientTimeout cfg);
  normal_ServerTimeout : ms_range (ServiceConfig.ServerTimeout cfg);
  normal_DialTimeout : ms_range (ServiceConfig.DialTimeout cfg);
  normal_names : NoDup (config_names (ServiceConfig.Backends cfg));
  normal_backends :
    Forall backend_config_normal (ServiceConfig.Backends cfg)
}.

(** A backend that carries the settings of its service. *)
Definition attached_to (s : Service.t) (b : Backend.t) : Prop :=
  Backend.up b = true /\
  Backend.rwTimeout b = Service.ServerTimeout s /\
  Backend.dialTimeout b = Service.DialTimeout s /\
  Backend.checkInterval b = ms_to_duration (Service.CheckInterval s).

(** ** Backends that are running *)

(** A list without the first occurrence of a backend. *)
Fixpoint remove_one (b : Backend.t) (l : list Backend.t) : list Backend.t :=
  match l with
  | [] => []
  | x :: l' => if decide (x = b) then l' else x :: remove_one b l'
  end.

(** The backends that have been started and not stopped, after a trace
    that began with [acc] running. *)
Definition running (ev : list Event) (acc : list Backend.t)
  : list Backend.t :=
  fold_left
    (fun acc e =>
       match e with
       | Start b => acc ++ [b]
       | Stop b => remove_one b acc
       | _ => acc
       end) ev acc.

(** The plain sum of a counter over a list of backends. *)
Definition sum_of (f : Backend.t -> Z) (bs : list Backend.t) : Z :=
  fold_right (fun b acc => f b + acc) 0 bs.

(** ** Notions used for the loops *)

(** The connections a script of [Accept] answers hands over. *)
Definition accepted (script : list Service.AcceptResult) : list Conn :=
  flat_map (fun a => match a with
                     | Service.Accepted c => [c]
                     | Service.AcceptErr _ => []
                     end) script.

(** The goroutines a list of actions starts, in order. *)
Definition spawned (acts : list Service.Action) : list Service.Task :=
  flat_map (fun a => match a with Service.Go t => [t] | _ => [] end) acts.

(** An answer of [Accept] after which the accept loop goes on. *)
Definition keeps_accepting (a : Service.AcceptResult) : bool :=
  match a with
  | Service.Accepted _ => true
  | Service.AcceptErr e => is_temporary e
  end.

(** The bytes a script of datagrams delivers. *)
Definition received (script : list Service.Datagram) : Z :=
  fold_right (fun d acc => Service.rd_n d + acc) 0 script.

(** The listeners of a service that has not been started. *)
Definition no_listeners : Service.Listeners := Service.mkListeners None None.

(** The log line of [stop] followed by the stopping of every backend. *)
Definition stop_backends (s : Service.t) : list Service.Action :=
  Service.StoppingListener (Service.Name s) (Service.Network s)
    (Service.Addr s)
  :: map (fun b => Service.Ev (Stop b)) (Service.Backends s).

(** The lines [stop] logs after closing a listener. *)
Definition close_log (closeErr : option IOError) : list Service.Action :=
  match closeErr with Some e => [Service.Println e] | None => [] end.

(** The configurations a run of [loadConfig] hands to the registry. *)
Definition updates {C : Type} (acts : list (LoadAction C)) : list C :=
  flat_map (fun a => match a with UpdateConfig cfg => [cfg] | _ => [] end)
    acts.

(** The configuration a path leads to: the path is set, the file can be
    read and its content can be parsed. *)
Definition loadable {C : Type} (unmarshal : list Byte.byte -> option C)
  (fs : FileSystem) (path : string) : option C :=
  if String.eqb path "" then None else fs !! path ≫= unmarshal.

(** Whether an event is a log line. *)
Definition is_log (e : Event) : bool :=
  match e with
  | Printf _ | Debugf _ | Warnf _ | Errorf _ => true
  | _ => false
  end.
(** * Properties *)

(** ** Machine arithmetic *)

Section Arithmetic.

Lemma wrap64_id (z : Z) : int64_range z -> wrap64 z = z.
Proof.
  unfold int64_range, wrap64. intros H.
  rewrite Z.mod_small; lia.
Qed.

Lemma wrap64_range (z : Z) : int64_range (wrap64 z).
Proof.
  unfold int64_range, wrap64.
  pose proof (Z.mod_pos_bound (z + 2 ^ 63) (2 ^ 64) ltac:(lia)). lia.
Qed.

Lemma wrap64_add_l (a b : Z) : wrap64 (wrap64 a + b) = wrap64 (a + b).
Proof.
  unfold wrap64.
  replace ((a + 2 ^ 63) mod 2 ^ 64 - 2 ^ 63 + b + 2 ^ 63)
    with ((a + 2 ^ 63) mod 2 ^ 64 + b) by lia.
  rewrite Zplus_mod_idemp_l. f_equal. f_equal. lia.
Qed.




End Arithmetic.

(** ** Comparing configurations *)

Section Comparison.

Import ServiceConfig.

(** C3: [Equal] fills in the default network of its receiver only.
    With an empty network on one side and "tcp" on the other the two
    configurations compare equal in one order and different in the
    other, and a configuration with an empty network differs from
    itself, while the defaults of balance, check interval, rise and fall
    are filled in on both sides. *)
Theorem Equal_network_default_one_sided :
  Equal cfg_default_network cfg_tcp_network = true /\
  Equal cfg_tcp_network cfg_default_network = false /\
  Equal cfg_default_network cfg_default_network = false /\
  Equal cfg_all_defaults cfg_tcp_network = true /\
  Equal cfg_tcp_network cfg_all_defaults = true.
Proof. repeat split; vm_compute; reflexivity. Qed.

(** In general, a configuration whose network is left empty is not
    [Equal] to itself. *)
Lemma Equal_empty_network_not_reflexive (a : ServiceConfig.t) :
  Network a = ""%string -> Equal a a = false.
Proof.
  intros H. unfold Equal.
  apply bool_decide_eq_false. intros E.
  apply (f_equal Network) in E. revert E.
  destruct a as [n ad vh bal ci fl rs ct st dt ep nw bs]. cbn in H. subst nw.
  cbn [Balance set_Backends]. rewrite String.eqb_refl. cbn [negb].
  cbn [CheckInterval set_Backends].
  destruct (ci =? 0); cbn [Rise set_CheckInterval set_Backends];
    destruct (rs =? 0); cbn [Fall set_Rise set_CheckInterval set_Backends];
    destruct (fl =? 0); cbn; discriminate.
Qed.

Lemma DeepEqual_next_pairwise (a : BackendConfig.t)
  (bs : list BackendConfig.t) :
  (forall b, In b bs -> BackendConfig.Name a = BackendConfig.Name b ->
             BackendConfig.Equal a b = true) ->
  DeepEqual_next a bs = true.
Proof.
  induction bs as [| b bs IH]; intros H; simpl; [reflexivity |].
  destruct (String.eqb (BackendConfig.Name a) (BackendConfig.Name b)) eqn:E.
  - apply String.eqb_eq in E. rewrite (H b); [reflexivity | now left | exact E].
  - apply IH. intros b' Hin. apply H. now right.
Qed.

Lemma DeepEqual_loop_pairwise (xs bs : list BackendConfig.t) :
  (forall a b, In a xs -> In b bs ->
               BackendConfig.Name a = BackendConfig.Name b ->
               BackendConfig.Equal a b = true) ->
  DeepEqual_loop xs bs = true.
Proof.
  induction xs as [| a xs IH]; intros H; simpl; [reflexivity |].
  rewrite DeepEqual_next_pairwise.
  - apply IH. intros a' b Ha. apply H. now right.
  - intros b Hb. apply H; [now left | exact Hb].
Qed.

(** C9: [DeepEqual] answers true as soon as the settings are [Equal],
    the backend lists have the same length and all backends that share
    a name are [Equal]; a name present on one side only is not looked
    at, so two configurations whose backends have nothing in common can
    be [DeepEqual]. *)
Theorem DeepEqual_compares_same_named_only :
  (forall s other : ServiceConfig.t,
      Equal s other = true ->
      length (Backends s) = length (Backends other) ->
      (forall a b, In a (Backends s) -> In b (Backends other) ->
                   BackendConfig.Name a = BackendConfig.Name b ->
                   BackendConfig.Equal a b = true) ->
      DeepEqual s other = true) /\
  (exists s other : ServiceConfig.t,
      length (Backends s) = length (Backends other) /\
      Backends s <> [] /\
      (forall a b, In a (Backends s) -> In b (Backends other) ->
                   BackendConfig.Name a <> BackendConfig.Name b) /\
      DeepEqual s other = true).
Proof.
  split.
  - intros s other HE HL HP. unfold DeepEqual.
    rewrite HL, Nat.eqb_refl, HE. simpl.
    apply DeepEqual_loop_pairwise. exact HP.
  - exists (cfg_one_backend "b1" "10.0.0.1:80"),
           (cfg_one_backend "b2" "10.0.0.2:80").
    repeat split.
    + discriminate.
    + simpl. intros a b [<- | []] [<- | []]. discriminate.
Qed.

(** The first part of C9 at a concrete pair of configurations. *)
Lemma DeepEqual_compares_same_named_only_witness :
  DeepEqual (cfg_one_backend "b1" "10.0.0.1:80")
            (cfg_one_backend "b2" "10.0.0.2:80") = true.
Proof.
  apply (proj1 DeepEqual_compares_same_named_only).
  - vm_compute. reflexivity.
  - reflexivity.
  - simpl. intros a b [<- | []] [<- | []]. discriminate.
Defined.

End Comparison.

(** ** Updating the defaults of a service *)

Section Defaults.

Import Service.

(** C10: [UpdateDefaults] returns nil.  Each of the six tunables takes
    the value of the configuration when that value is not zero and keeps
    its own otherwise; the name, address, balance, network, backend list,
    the counters and every other field are as before. *)
Theorem UpdateDefaults_frame (s : Service.t) (cfg : ServiceConfig.t) :
  let s' := fst (UpdateDefaults s cfg) in
  snd (UpdateDefaults s cfg) = None /\
  (Name s' = Name s /\ Addr s' = Addr s /\ Balance s' = Balance s /\
   Network s' = Network s /\ Backends s' = Backends s /\
   VirtualHosts s' = VirtualHosts s /\ errPagesCfg s' = errPagesCfg s /\
   next s' = next s /\ lastBackend s' = lastBackend s /\
   lastCount s' = lastCount s) /\
  (Sent s' = Sent s /\ Rcvd s' = Rcvd s /\ Errors s' = Errors s /\
   HTTPConns s' = HTTPConns s /\ HTTPErrors s' = HTTPErrors s /\
   HTTPActive s' = HTTPActive s) /\
  CheckInterval s' =
    (if ServiceConfig.CheckInterval cfg =? 0 then CheckInterval s
     else ServiceConfig.CheckInterval cfg) /\
  Fall s' =
    (if ServiceConfig.Fall cfg =? 0 then Fall s else ServiceConfig.Fall cfg) /\
  Rise s' =
    (if ServiceConfig.Rise cfg =? 0 then Rise s else ServiceConfig.Rise cfg) /\
  ClientTimeout s' =
    (if ServiceConfig.ClientTimeout cfg =? 0 then ClientTimeout s
     else ms_to_duration (ServiceConfig.ClientTimeout cfg)) /\
  ServerTimeout s' =
    (if ServiceConfig.ServerTimeout cfg =? 0 then ServerTimeout s
     else ms_to_duration (ServiceConfig.ServerTimeout cfg)) /\
  DialTimeout s' =
    (if ServiceConfig.DialTimeout cfg =? 0 then DialTimeout s
     else ms_to_duration (ServiceConfig.DialTimeout cfg)).
Proof.
  unfold UpdateDefaults.
  destruct (ServiceConfig.CheckInterval cfg =? 0),
           (ServiceConfig.Fall cfg =? 0),
           (ServiceConfig.Rise cfg =? 0),
           (ServiceConfig.ClientTimeout cfg =? 0),
           (ServiceConfig.ServerTimeout cfg =? 0),
           (ServiceConfig.DialTimeout cfg =? 0);
    cbn; repeat split; reflexivity.
Qed.

End Defaults.

(** ** Statistics *)

Section Statistics.

Import Service.

Lemma Stats_fold (bs : list Backend.t) (st : ServiceStat.t) :
  let r := fold_left Stats_add bs st in
  ServiceStat.Sent r = total Backend.Sent (ServiceStat.Sent st) bs /\
  ServiceStat.Rcvd r = total Backend.Rcvd (ServiceStat.Rcvd st) bs /\
  ServiceStat.Errors r = total Backend.Errors (ServiceStat.Errors st) bs /\
  ServiceStat.Conns r = total Backend.Conns (ServiceStat.Conns st) bs /\
  ServiceStat.Active r = total Backend.Active (ServiceStat.Active st) bs.
Proof.
  revert st. induction bs as [| b bs IH]; intros st; simpl.
  - repeat split; reflexivity.
  - apply (IH (Stats_add st b)).
Qed.

(** What [Stats] reports: sent and received start from the service's
    own counters; errors, connections and active start from zero. *)
Lemma Stats_totals (s : Service.t) :
  ServiceStat.Sent (Stats s) = total Backend.Sent (Sent s) (Backends s) /\
  ServiceStat.Rcvd (Stats s) = total Backend.Rcvd (Rcvd s) (Backends s) /\
  ServiceStat.Errors (Stats s) = total Backend.Errors 0 (Backends s) /\
  ServiceStat.Conns (Stats s) = total Backend.Conns 0 (Backends s) /\
  ServiceStat.Active (Stats s) = total Backend.Active 0 (Backends s).
Proof. unfold Stats. apply Stats_fold. Qed.

(** The service's own error counter has no influence on [Stats]. *)
Lemma Stats_Errors_own_ignored (s : Service.t) (x : Z) :
  ServiceStat.Errors (Stats (set_Errors x s)) = ServiceStat.Errors (Stats s).
Proof.
  destruct (Stats_totals s) as (_ & _ & -> & _).
  destruct (Stats_totals (set_Errors x s)) as (_ & _ & -> & _).
  reflexivity.
Qed.

(** C6: after the datagram loop of a service without backends has
    counted one read error, the service's own [Errors] is 1 and the
    errors reported by [Stats] are 0, while the own counters for sent
    and received are part of the reported values. *)
Theorem Stats_drops_own_errors :
  NewService
    (ServiceConfig.mk "dns" "127.0.0.1:5353" None "RR" 0 0 0 0 0 0 None
       "udp" []) = Some (udp_service, []) /\
  (let s := fst (fst (runUDP udp_service [read_failure])) in
   Errors s = 1 /\ Backends s = [] /\
   ServiceStat.Errors (Stats s) = 0) /\
  ServiceStat.Sent (Stats (set_Sent 30 udp_service)) = 30 /\
  ServiceStat.Rcvd (Stats (set_Rcvd 42 udp_service)) = 42.
Proof. repeat split; vm_compute; reflexivity. Qed.

End Statistics.

(** ** The state file *)

Section StateFile.

Lemma ReadFile_eq_dec (cfg : list Byte.byte) (fs : FileSystem)
  (path : string) :
  ReadFile fs path = cfg -> bool_decide (cfg = ReadFile fs path) = true.
Proof. intros <-. apply bool_decide_eq_true. reflexivity. Qed.

(** C7: when the state path is empty, or the marshalled configuration
    is empty, or it equals the bytes read from the state file,
    [writeStateConfig] writes nothing and leaves the files as they are. *)
Theorem writeStateConfig_skips_unchanged (stateConfig : string)
  (cfg : list Byte.byte) (wr : WriteResult) (fs : FileSystem) :
  stateConfig = ""%string \/ cfg = [] \/ ReadFile fs stateConfig = cfg ->
  fst (writeStateConfig stateConfig cfg wr fs) = fs /\
  existsb is_write (snd (writeStateConfig stateConfig cfg wr fs)) = false.
Proof.
  intros H. unfold writeStateConfig.
  destruct (String.eqb stateConfig "") eqn:E1; [split; reflexivity |].
  destruct (length cfg =? 0)%nat eqn:E2; [split; reflexivity |].
  destruct H as [H | [H | H]].
  - apply String.eqb_neq in E1. contradiction.
  - subst cfg. discriminate E2.
  - rewrite (ReadFile_eq_dec _ _ _ H). split; reflexivity.
Qed.

(** C7 on a state file that already holds the configuration. *)
Lemma writeStateConfig_skips_unchanged_witness :
  fst (writeStateConfig "state.json" cfg_bytes WriteOk fs_saved) = fs_saved /\
  existsb is_write
    (snd (writeStateConfig "state.json" cfg_bytes WriteOk fs_saved)) = false.
Proof.
  apply writeStateConfig_skips_unchanged.
  right. right. vm_compute. reflexivity.
Defined.

(** In every other case the file is written with the new bytes. *)
Lemma writeStateConfig_writes_changed (stateConfig : string)
  (cfg : list Byte.byte) (fs : FileSystem) :
  stateConfig <> ""%string -> cfg <> [] -> ReadFile fs stateConfig <> cfg ->
  writeStateConfig stateConfig cfg WriteOk fs =
    (<[stateConfig := cfg]> fs, [WriteFile stateConfig cfg]).
Proof.
  intros H1 H2 H3. unfold writeStateConfig.
  apply String.eqb_neq in H1. rewrite H1.
  destruct cfg as [| c cfg]; [contradiction |]. simpl length. simpl Nat.eqb.
  rewrite bool_decide_eq_false_2; [reflexivity |].
  intros E. apply H3. symmetry. exact E.
Qed.

End StateFile.

(** ** The datagram loop *)

Section Datagrams.

Import Service.

(** C5, as the code has it: a round that gets as far as [WriteTo]
    always goes on to the next round.  A temporary send error is logged
    as a warning and changes neither [Sent] nor [Errors]; any other send
    error is logged as an error and counted in [Errors], [Sent] staying
    as it is; a successful send adds the bytes written to [Sent]. *)
Theorem runUDP_send_outcomes (s : Service.t) (d : Datagram)
  (rest : list Datagram) :
  reaches_send d = true ->
  exists s' ev,
    runUDP_round s d = (s', ev, Continue) /\
    runUDP s (d :: rest) =
      (let '(s2, e2, l) := runUDP s' rest in (s2, ev ++ e2, l)) /\
    Rcvd s' = wrap64 (Rcvd s + rd_n d) /\
    match wr_err d with
    | None => Sent s' = wrap64 (Sent s + wr_n d) /\ Errors s' = Errors s
    | Some e =>
        Sent s' = Sent s /\
        if is_temporary e
        then Errors s' = Errors s /\ last ev = Some (Warnf (MsgIOError e))
        else Errors s' = wrap64 (Errors s + 1) /\
             last ev = Some (Errorf (MsgIOError e))
    end.
Proof.
  unfold reaches_send. intros H.
  apply andb_prop in H as [H Hrr]. apply andb_prop in H as [Hrd Hn].
  apply negb_true_iff in Hn.
  destruct (rr d) as [backend |] eqn:Err; [clear Hrr | discriminate].
  assert (Hfw : forall ev0, exists s' ev,
             runUDP_forward s d ev0 = (s', ev, Continue) /\
             Rcvd s' = wrap64 (Rcvd s + rd_n d) /\
             match wr_err d with
             | None =>
                 Sent s' = wrap64 (Sent s + wr_n d) /\ Errors s' = Errors s
             | Some e =>
                 Sent s' = Sent s /\
                 if is_temporary e
                 then Errors s' = Errors s /\
                      last ev = Some (Warnf (MsgIOError e))
                 else Errors s' = wrap64 (Errors s + 1) /\
                      last ev = Some (Errorf (MsgIOError e))
             end).
  { intros ev0. unfold runUDP_forward. rewrite Hn, Err.
    destruct (wr_err d) as [e |]; [destruct (is_temporary e) eqn:Et |];
      eexists _, _; (split; [reflexivity |]); cbn;
      rewrite ?Et, ?last_snoc; repeat split; reflexivity. }
  assert (Hround : exists ev0, runUDP_round s d = runUDP_forward s d ev0).
  { unfold runUDP_round. destruct (rd_err d) as [e |]; [| eauto].
    apply andb_prop in Hrd as [Hc Ht]. apply negb_true_iff in Hc.
    rewrite Hc, Ht. eauto. }
  destruct Hround as [ev0 Hround]. destruct (Hfw ev0) as (s' & ev & E & HR & HW).
  exists s', ev. rewrite Hround, E. repeat split; try assumption.
  cbn [runUDP]. rewrite Hround, E. reflexivity.
Qed.

(** The loop returns from a round only after a read error: the
    shutdown error, or one that is not temporary. *)
Lemma runUDP_round_Return (s : Service.t) (d : Datagram) :
  snd (runUDP_round s d) = Return <->
  exists e, rd_err d = Some e /\
            (String.eqb (err_text e) closed_text = true \/
             is_temporary e = false).
Proof.
  assert (Hfw : forall ev, snd (runUDP_forward s d ev) = Continue).
  { intros ev. unfold runUDP_forward.
    destruct (rd_n d =? 0); [reflexivity |].
    destruct (rr d); [| reflexivity].
    destruct (wr_err d) as [e |]; [destruct (is_temporary e) |]; reflexivity. }
  unfold runUDP_round. destruct (rd_err d) as [e |].
  - destruct (String.eqb (err_text e) closed_text) eqn:Ec.
    + split; [intros _; exists e; auto | reflexivity].
    + destruct (is_temporary e) eqn:Et.
      * rewrite Hfw. split; [discriminate |].
        intros (e' & He & [H | H]); inversion He; subst; congruence.
      * split; [intros _; exists e; auto | reflexivity].
  - rewrite Hfw. split; [discriminate | intros (e & He & _); discriminate].
Qed.

(** C5 on a datagram whose forwarding fails for good, with another
    datagram behind it. *)
Lemma runUDP_send_outcomes_witness :
  exists s' ev,
    runUDP_round udp_service send_failure = (s', ev, Continue) /\
    runUDP udp_service [send_failure; send_ok] =
      (let '(s2, e2, l) := runUDP s' [send_ok] in (s2, ev ++ e2, l)) /\
    Rcvd s' = wrap64 (Rcvd udp_service + 12) /\
    Sent s' = Sent udp_service /\
    Errors s' = wrap64 (Errors udp_service + 1) /\
    last ev = Some (Errorf (MsgIOError
                (mkIOError "write udp: network is unreachable" (Some false)))).
Proof.
  destruct (runUDP_send_outcomes udp_service send_failure [send_ok])
    as (s' & ev & H1 & H2 & H3 & H4 & H5 & H6); [reflexivity |].
  exists s', ev. repeat split; assumption.
Defined.

(** C5 as the claim has it fails: after a send error that is not
    temporary the loop does not return; the next datagram is received
    and forwarded. *)
Lemma runUDP_permanent_send_error_continues :
  snd (runUDP_round udp_service send_failure) <> Return /\
  runUDP udp_service [send_failure; send_ok] =
    (set_Sent 30 (set_Rcvd 42 (set_Errors 1 udp_service)),
     [Errorf (MsgIOError
        (mkIOError "write udp: network is unreachable" (Some false)))],
     Continue).
Proof. split; [vm_compute; discriminate | vm_compute; reflexivity]. Qed.

End Datagrams.

(** ** The backend list *)

Section BackendList.

Import Service.

Lemma map_is_fmap {A B : Type} (f : A -> B) (l : list A) : map f l = f <$> l.
Proof. reflexivity. Qed.

Lemma names_lookup (bs : list Backend.t) (i : nat) :
  names bs !! i = Backend.Name <$> bs !! i.
Proof. unfold names. rewrite map_is_fmap. apply list_lookup_fmap. Qed.

Lemma names_insert (bs : list Backend.t) (i : nat) (b : Backend.t) :
  names (<[i := b]> bs) = <[i := Backend.Name b]> (names bs).
Proof. unfold names. rewrite !map_is_fmap. apply list_fmap_insert. Qed.

(** Replacing a backend by one of the same name keeps the names. *)
Lemma names_insert_same (bs : list Backend.t) (i : nat)
  (old b : Backend.t) :
  bs !! i = Some old -> Backend.Name b = Backend.Name old ->
  names (<[i := b]> bs) = names bs.
Proof.
  intros Hi Hn. rewrite names_insert. apply list_insert_id.
  rewrite names_lookup, Hi, Hn. reflexivity.
Qed.

Lemma find_name_Some (name : string) (bs : list Backend.t) (i : nat)
  (b : Backend.t) :
  find_name name bs = Some (i, b) ->
  bs !! i = Some b /\ Backend.Name b = name.
Proof.
  unfold find_name. intros H. apply list_find_Some in H as (H1 & H2 & _).
  split; assumption.
Qed.

Lemma find_name_None (name : string) (bs : list Backend.t) :
  find_name name bs = None <-> ~ In name (names bs).
Proof.
  unfold find_name, names. rewrite list_find_None, Forall_forall.
  rewrite in_map_iff. split.
  - intros H (b & Hb & Hin). apply (H b); [| exact Hb].
    apply list_elem_of_In. exact Hin.
  - intros H b Hin Hb. apply H. exists b. split; [exact Hb |].
    apply list_elem_of_In. exact Hin.
Qed.

(** With unique names, the position of a name is determined. *)
Lemma find_name_unique (bs : list Backend.t) (i : nat) (b : Backend.t) :
  NoDup (names bs) -> bs !! i = Some b ->
  find_name (Backend.Name b) bs = Some (i, b).
Proof.
  intros Hnd Hi.
  destruct (find_name (Backend.Name b) bs) as [[j b'] |] eqn:E.
  - apply find_name_Some in E as [Hj Hn].
    assert (i = j) as <-.
    { eapply (NoDup_lookup (names bs)); [exact Hnd | |];
        rewrite names_lookup.
      - rewrite Hi. reflexivity.
      - rewrite Hj. simpl. rewrite Hn. reflexivity. }
    congruence.
  - apply find_name_None in E. exfalso. apply E.
    unfold names. apply in_map. apply list_elem_of_In.
    eapply list_elem_of_lookup_2. exact Hi.
Qed.

(** Moving the last element into position [i] and dropping the last
    slot removes exactly the element that was at [i]. *)
Lemma swap_remove_Permutation {A : Type} (l : list A) (i : nat) (x y : A) :
  l !! i = Some x -> l !! (length l - 1)%nat = Some y ->
  Permutation l (x :: take (length l - 1) (<[i := y]> l)).
Proof.
  intros Hi Hl.
  destruct (list_elem_of_split_length l i x Hi) as (l1 & l2 & -> & Hlen).
  subst i.
  destruct l2 as [| z l2 _] using rev_ind.
  - rewrite length_app in *. simpl in *.
    replace (length l1 + 1 - 1)%nat with (length l1) in * by lia.
    rewrite insert_app_r_alt by lia. rewrite Nat.sub_diag. simpl.
    rewrite take_app_length. symmetry. apply Permutation_cons_append.
  - assert (y = z) as ->.
    { rewrite app_comm_cons, app_assoc in Hl.
      rewrite length_app in Hl. simpl in Hl.
      rewrite Nat.add_sub in Hl.
      rewrite lookup_app_r in Hl by lia. rewrite Nat.sub_diag in Hl.
      simpl in Hl. congruence. }
    rewrite insert_app_r_alt by lia. rewrite Nat.sub_diag. simpl.
    replace (length (l1 ++ x :: l2 ++ [z]) - 1)%nat
      with (length (l1 ++ z :: l2)).
    2: { rewrite !length_app. simpl. rewrite length_app. simpl. lia. }
    rewrite (app_comm_cons l2 [z] z), app_assoc, take_app_length.
    rewrite <- Permutation_middle. apply perm_skip.
    rewrite Permutation_app_comm. simpl.
    rewrite (Permutation_app_comm l1 (z :: l2)). simpl.
    rewrite <- app_assoc. simpl.
    rewrite (Permutation_app_comm l2 (z :: l1)). simpl.
    apply perm_skip. apply Permutation_app_comm.
Qed.

Lemma slice_to_Some (n : nat) (x : string) :
  (n <= String.length x)%nat <-> exists y, slice_to n x = Some y.
Proof.
  unfold slice_to. destruct (n <=? String.length x)%nat eqn:E.
  - apply Nat.leb_le in E. split; eauto.
  - apply Nat.leb_gt in E. split; [lia | intros [y Hy]; discriminate].
Qed.

(** What [add] does when it returns: the log lines first, then the
    replacement of the backend of that name, or the new backend at the
    end. *)
Lemma add_inv (s : Service.t) (backend : Backend.t) (s' : Service.t)
  (ev : list Event) :
  add s backend = Some (s', ev) ->
  let b' := Backend.attach (ServerTimeout s) (DialTimeout s)
              (ms_to_duration (CheckInterval s)) backend in
  (3 <= String.length (Network s))%nat /\
  (3 <= String.length (Backend.Network backend))%nat /\
  exists log, lifecycle log = [] /\
    match find_name (Backend.Name backend) (Backends s) with
    | Some (i, old) =>
        s' = set_Backends (<[i := b']> (Backends s)) s /\
        ev = log ++ [Stop old; Start b']
    | None =>
        s' = set_Backends (Backends s ++ [b']) s /\
        ev = log ++ [Start b']
    end.
Proof.
  intros H b'. unfold add in H.
  destruct (slice_to 3 (Network s)) as [sn |] eqn:E1; [| discriminate].
  cbn in H.
  destruct (slice_to 3 (Backend.Network backend)) as [bn |] eqn:E2;
    [| discriminate].
  cbn in H.
  split; [apply slice_to_Some; eauto |].
  split; [apply slice_to_Some; eauto |].
  match type of H with
  | context [?l1 :: ?l2 ++ [Start _]] => exists (l1 :: l2)
  end.
  split; [destruct (negb (String.eqb sn bn)); reflexivity |].
  destruct (find_name (Backend.Name backend) (Backends s)) as [[i old] |];
    inversion H; subst; split; reflexivity.
Qed.

(** [add] returns when both network names have a family prefix. *)
Lemma add_defined (s : Service.t) (backend : Backend.t) :
  (3 <= String.length (Network s))%nat ->
  (3 <= String.length (Backend.Network backend))%nat ->
  exists s' ev, add s backend = Some (s', ev).
Proof.
  intros H1 H2. unfold add.
  apply slice_to_Some in H1 as [sn ->]. cbn.
  apply slice_to_Some in H2 as [bn ->]. cbn.
  destruct (find_name (Backend.Name backend) (Backends s)) as [[i old] |];
    eauto.
Qed.

Lemma add_NoDup (s : Service.t) (backend : Backend.t) (s' : Service.t)
  (ev : list Event) :
  NoDup (names (Backends s)) -> add s backend = Some (s', ev) ->
  NoDup (names (Backends s')).
Proof.
  intros Hnd H. apply add_inv in H as (_ & _ & log & _ & H).
  destruct (find_name (Backend.Name backend) (Backends s))
    as [[i old] |] eqn:E; destruct H as [-> _]; cbn.
  - apply find_name_Some in E as [Hi Hn].
    rewrite (names_insert_same _ _ old); [exact Hnd | exact Hi |].
    rewrite Hn. reflexivity.
  - apply find_name_None in E. unfold names in *. rewrite map_app. cbn.
    apply NoDup_app. split; [exact Hnd |]. split; [| apply NoDup_singleton].
    intros x Hx Hx'. apply list_elem_of_singleton in Hx'. subst x.
    apply E. apply list_elem_of_In. exact Hx.
Qed.

Lemma add_all_NoDup (cfgs : list BackendConfig.t) (s s' : Service.t)
  (ev : list Event) :
  NoDup (names (Backends s)) -> add_all s cfgs = Some (s', ev) ->
  NoDup (names (Backends s')).
Proof.
  revert s s' ev. induction cfgs as [| c cfgs IH]; intros s s' ev Hnd H.
  - cbn in H. congruence.
  - cbn in H.
    destruct (add s (NewBackend c)) as [[s1 e1] |] eqn:E1; [| discriminate].
    cbn in H.
    destruct (add_all s1 cfgs) as [[s2 e2] |] eqn:E2; [| discriminate].
    cbn in H. inversion H; subst.
    eapply IH; [| exact E2]. eapply add_NoDup; eauto.
Qed.

(** [NewService] leaves the backend list as the loop of [add] made it. *)
Lemma NewService_inv (cfg : ServiceConfig.t) (s : Service.t)
  (ev : list Event) :
  NewService cfg = Some (s, ev) ->
  exists s0 s1 ev1,
    Backends s0 = [] /\
    CheckInterval s0 <> 0 /\ Rise s0 <> 0 /\ Fall s0 <> 0 /\
    Network s0 <> ""%string /\
    ClientTimeout s0 = ms_to_duration (ServiceConfig.ClientTimeout cfg) /\
    ServerTimeout s0 = ms_to_duration (ServiceConfig.ServerTimeout cfg) /\
    DialTimeout s0 = ms_to_duration (ServiceConfig.DialTimeout cfg) /\
    add_all s0 (ServiceConfig.Backends cfg) = Some (s1, ev1) /\
    (s = s1 \/ exists n, s = set_next n s1).
Proof.
  unfold NewService. intros H.
  match type of H with
  | context [add_all ?s0 _] => remember s0 as s0' eqn:Es0
  end.
  destruct (add_all s0' (ServiceConfig.Backends cfg)) as [[s1 ev1] |] eqn:E;
    [| discriminate].
  cbn in H. exists s0', s1, ev1.
  assert (Hs : s = s1 \/ exists n, s = set_next n s1).
  { destruct (String.eqb (ServiceConfig.Balance cfg) "RR"
              || String.eqb (ServiceConfig.Balance cfg) "");
      [inversion H; eauto |].
    destruct (String.eqb (ServiceConfig.Balance cfg) "LC");
      inversion H; eauto. }
  clear H. subst s0'.
  destruct (ServiceConfig.CheckInterval cfg =? 0) eqn:E1;
    destruct (ServiceConfig.Rise cfg =? 0) eqn:E2;
    destruct (ServiceConfig.Fall cfg =? 0) eqn:E3;
    destruct (String.eqb (ServiceConfig.Network cfg) "") eqn:E4;
    do 4 (cbn in E |- *; rewrite ?E1, ?E2, ?E3, ?E4 in E |- *);
    rewrite ?Z.eqb_neq, ?String.eqb_neq in *;
    repeat split; try assumption; try discriminate; try reflexivity.
Qed.

(** [remove] always returns; what it returns depends on whether the
    name is found. *)
Lemma remove_result (s : Service.t) (name : string) :
  match find_name name (Backends s) with
  | Some (i, b) =>
      exists lastb,
        Backends s !! (length (Backends s) - 1)%nat = Some lastb /\
        remove s name =
          Some (set_Backends
                  (take (length (Backends s) - 1) (<[i := lastb]> (Backends s)))
                  s,
                [Printf (MsgRemoving (Backend.Network b) (Backend.Addr b)
                           (Name s) (Addr s)); Stop b],
                true)
  | None => remove s name = Some (s, [], false)
  end.
Proof.
  unfold remove.
  destruct (find_name name (Backends s)) as [[i b] |] eqn:E; [| reflexivity].
  apply find_name_Some in E as [Hi _].
  apply lookup_lt_Some in Hi.
  destruct (lookup_lt_is_Some_2 (Backends s) (length (Backends s) - 1))
    as [lastb Hl]; [lia |].
  exists lastb. rewrite Hl. split; reflexivity.
Qed.

Lemma set_Backends_same (s : Service.t) : set_Backends (Backends s) s = s.
Proof. destruct s. reflexivity. Qed.

Lemma names_Permutation (bs bs' : list Backend.t) :
  Permutation bs bs' -> Permutation (names bs) (names bs').
Proof. apply Permutation_map. Qed.

(** C8: the services [NewService] builds have backends of distinct
    names, and [add] and [remove] keep the names distinct.  [add] with a
    name already in the list puts the new backend at the position of the
    old one, which is stopped before the new one is started, and the
    length stays; [add] with a new name puts the backend at the end.
    [remove] takes out the backend of the given name and stops it, the
    length going down by one, and answers false exactly when no backend
    has that name, in which case nothing changes. *)
Theorem backend_names_stay_unique :
  (forall cfg s ev,
      NewService cfg = Some (s, ev) -> NoDup (names (Backends s))) /\
  (forall s backend,
      NoDup (names (Backends s)) ->
      (3 <= String.length (Network s))%nat ->
      (3 <= String.length (Backend.Network backend))%nat ->
      let b' := Backend.attach (ServerTimeout s) (DialTimeout s)
                  (ms_to_duration (CheckInterval s)) backend in
      exists s' ev,
        add s backend = Some (s', ev) /\
        NoDup (names (Backends s')) /\
        s' = set_Backends (Backends s') s /\
        (forall i old,
            Backends s !! i = Some old ->
            Backend.Name old = Backend.Name backend ->
            Backends s' = <[i := b']> (Backends s) /\
            length (Backends s') = length (Backends s) /\
            lifecycle ev = [Stop old; Start b']) /\
        (~ In (Backend.Name backend) (names (Backends s)) ->
         Backends s' = Backends s ++ [b'] /\
         lifecycle ev = [Start b'])) /\
  (forall s name,
      NoDup (names (Backends s)) ->
      exists s' ev r,
        remove s name = Some (s', ev, r) /\
        NoDup (names (Backends s')) /\
        s' = set_Backends (Backends s') s /\
        (r = false <-> ~ In name (names (Backends s))) /\
        (r = false -> s' = s /\ ev = []) /\
        (r = true ->
         exists b,
           In b (Backends s) /\ Backend.Name b = name /\
           Permutation (Backends s) (b :: Backends s') /\
           S (length (Backends s')) = length (Backends s) /\
           ~ In name (names (Backends s')) /\
           lifecycle ev = [Stop b])).
Proof.
  split; [| split].
  - intros cfg s ev H.
    apply NewService_inv in H
      as (s0 & s1 & ev1 & Hb & _ & _ & _ & _ & _ & _ & _ & Hadd & Hs).
    assert (Hnd : NoDup (names (Backends s1))).
    { eapply add_all_NoDup; [| exact Hadd]. rewrite Hb. constructor. }
    destruct Hs as [-> | [n ->]]; exact Hnd.
  - intros s backend Hnd H1 H2 b'.
    destruct (add_defined s backend H1 H2) as (s' & ev & Hadd).
    exists s', ev. split; [exact Hadd |].
    split; [eapply add_NoDup; eauto |].
    apply add_inv in Hadd as (_ & _ & log & Hlog & H). fold b' in H.
    assert (Hlc : forall tl, lifecycle (log ++ tl) = lifecycle tl).
    { intros tl. unfold lifecycle in *. rewrite List.filter_app, Hlog.
      reflexivity. }
    split; [| split].
    + destruct (find_name (Backend.Name backend) (Backends s))
        as [[i old] |]; destruct H as [-> _]; reflexivity.
    + intros i old Hi Hn.
      rewrite <- Hn, (find_name_unique _ _ _ Hnd Hi) in H.
      destruct H as [-> ->]. cbn [Backends set_Backends].
      rewrite length_insert, Hlc. repeat split; reflexivity.
    + intros Hfresh. apply find_name_None in Hfresh. rewrite Hfresh in H.
      destruct H as [-> ->]. cbn [Backends set_Backends].
      rewrite Hlc. split; reflexivity.
  - intros s name Hnd. pose proof (remove_result s name) as H.
    destruct (find_name name (Backends s)) as [[i b] |] eqn:E.
    + destruct H as (lastb & Hl & ->).
      pose proof E as Enone.
      apply find_name_Some in E as [Hi Hn].
      pose proof (swap_remove_Permutation _ _ _ _ Hi Hl) as HP.
      pose proof (names_Permutation _ _ HP) as HPn. cbn in HPn.
      assert (Hnd' : NoDup (name :: names
                (take (length (Backends s) - 1) (<[i:=lastb]> (Backends s))))).
      { rewrite <- Hn. rewrite <- HPn. exact Hnd. }
      apply NoDup_cons in Hnd' as [Hnotin Hnd'].
      eexists _, _, _. split; [reflexivity |]. cbn [Backends set_Backends].
      split; [exact Hnd' |]. split; [reflexivity |].
      split; [| split].
      * split; [discriminate |]. intros Hno. exfalso.
        apply find_name_None in Hno. congruence.
      * discriminate.
      * intros _. exists b. split.
        { apply list_elem_of_In. eapply list_elem_of_lookup_2. exact Hi. }
        split; [exact Hn |]. split; [exact HP |].
        split; [apply Permutation_length in HP; cbn in HP; lia |].
        split; [| reflexivity].
        intros Hin. apply Hnotin. apply list_elem_of_In. exact Hin.
    + rewrite H. exists s, [], false. split; [reflexivity |].
      split; [exact Hnd |]. split; [symmetry; apply set_Backends_same |].
      apply find_name_None in E.
      split; [tauto |]. split; [intros _; split; reflexivity | discriminate].
Qed.

(** C8 on the service built from [cfg_web]: replacing backend b2,
    and removing backend b1. *)
Lemma backend_names_stay_unique_witness :
  (exists s' ev,
      add web_service (NewBackend (BackendConfig.mk "b2" "10.0.0.9:80" "" 1 ""))
        = Some (s', ev) /\
      NoDup (names (Backends s'))) /\
  (exists s' ev r,
      remove web_service "b1" = Some (s', ev, r) /\
      NoDup (names (Backends s'))).
Proof.
  assert (Hnd : NoDup (names (Backends web_service))).
  { apply (proj1 backend_names_stay_unique cfg_web web_service
             (snd (default (web_service, []) (NewService cfg_web)))).
    vm_compute. reflexivity. }
  split.
  - destruct (proj1 (proj2 backend_names_stay_unique) web_service
                (NewBackend (BackendConfig.mk "b2" "10.0.0.9:80" "" 1 ""))
                Hnd) as (s' & ev & H1 & H2 & _).
    + vm_compute. lia.
    + vm_compute. lia.
    + exists s', ev. split; assumption.
  - destruct (proj2 (proj2 backend_names_stay_unique) web_service "b1" Hnd)
      as (s' & ev & r & H1 & H2 & _).
    exists s', ev, r. split; assumption.
Defined.

End BackendList.

(** ** Adding a backend of the other network family *)

Section NetworkFamily.

Import Service.

(** Whenever [add] returns, the backend it was given is in the list:
    no comparison of network names keeps it out. *)
Lemma add_always_adds (s : Service.t) (backend : Backend.t)
  (s' : Service.t) (ev : list Event) :
  add s backend = Some (s', ev) ->
  In (Backend.attach (ServerTimeout s) (DialTimeout s)
        (ms_to_duration (CheckInterval s)) backend) (Backends s').
Proof.
  intros H. apply add_inv in H as (_ & _ & log & _ & H).
  destruct (find_name (Backend.Name backend) (Backends s))
    as [[i old] |] eqn:E; destruct H as [-> _]; cbn [Backends set_Backends].
  - apply find_name_Some in E as [Hi _]. apply lookup_lt_Some in Hi.
    apply list_elem_of_In. eapply list_elem_of_lookup_2.
    apply list_lookup_insert_eq. exact Hi.
  - apply in_or_app. right. left. reflexivity.
Qed.

(** C4: a UDP backend given to a TCP service.  [add] logs that the
    backend cannot use its network and then appends and starts it like
    any other backend. *)
Theorem add_keeps_mismatched_backend :
  let b' := Backend.attach 5000000 0 2000000000 udp_backend in
  add web_service udp_backend =
    Some (set_Backends (Backends web_service ++ [b']) web_service,
          [Printf (MsgAdding "udp" "10.0.0.4:53" "web" "127.0.0.1:8080");
           Errorf (MsgCannotUseNetwork "b3" "udp");
           Start b']).
Proof. vm_compute. reflexivity. Qed.

End NetworkFamily.

(** ** The TCP connect walk *)

Section ConnectTCP.

Import Service.

Variable dial : Dialer.
Variable cliConn : Conn.

Lemma count_error_length (bs : list Backend.t) (p : nat) :
  length (count_error bs p) = length bs.
Proof.
  unfold count_error. destruct (bs !! p); [apply length_insert | reflexivity].
Qed.

Lemma count_error_names (bs : list Backend.t) (p : nat) :
  names (count_error bs p) = names bs.
Proof.
  unfold count_error. destruct (bs !! p) as [b |] eqn:E; [| reflexivity].
  apply (names_insert_same _ _ b); [exact E | reflexivity].
Qed.

Lemma count_errors_length (ps : list nat) (bs : list Backend.t) :
  length (count_errors bs ps) = length bs.
Proof.
  revert bs. induction ps as [| p ps IH]; intros bs; [reflexivity |].
  cbn. unfold count_errors in IH. rewrite IH. apply count_error_length.
Qed.

Lemma count_errors_names (ps : list nat) (bs : list Backend.t) :
  names (count_errors bs ps) = names bs.
Proof.
  revert bs. induction ps as [| p ps IH]; intros bs; [reflexivity |].
  cbn. unfold count_errors in IH. rewrite IH. apply count_error_names.
Qed.

(** After counting the errors of [ps], the backend at [p] has as many
    more errors as [p] occurs in [ps], and is otherwise as before. *)
Lemma count_errors_lookup (ps : list nat) (bs : list Backend.t) (p : nat)
  (b : Backend.t) :
  bs !! p = Some b ->
  count_errors bs ps !! p =
    Some (if (count_occ Nat.eq_dec ps p =? 0)%nat then b
          else Backend.set_Errors
                 (wrap64 (Backend.Errors b
                          + Z.of_nat (count_occ Nat.eq_dec ps p))) b).
Proof.
  revert bs b. induction ps as [| q ps IH]; intros bs b Hp; [exact Hp |].
  change (count_errors bs (q :: ps)) with (count_errors (count_error bs q) ps).
  destruct (Nat.eq_dec q p) as [-> | Hne].
  - rewrite count_occ_cons_eq by reflexivity.
    unfold count_error at 1. rewrite Hp.
    erewrite IH; [| apply list_lookup_insert_eq; eapply lookup_lt_Some; eauto].
    f_equal. cbn [Nat.eqb].
    destruct (count_occ Nat.eq_dec ps p) as [| c]; [reflexivity |].
    cbn [Nat.eqb].
    change (Backend.Errors (Backend.set_Errors ?x b)) with x.
    change (Backend.set_Errors ?x (Backend.set_Errors ?y b))
      with (Backend.set_Errors x b).
    rewrite wrap64_add_l. do 2 f_equal. lia.
  - rewrite count_occ_cons_neq by exact Hne.
    apply IH. unfold count_error.
    destruct (bs !! q); [| exact Hp].
    rewrite list_lookup_insert_ne by exact Hne. exact Hp.
Qed.

Lemma dial_error_log_names (s s1 : Service.t) (ps : list nat) :
  Name s1 = Name s -> names (Backends s1) = names (Backends s) ->
  dial_error_log s1 ps = dial_error_log s ps.
Proof.
  intros Hn Hb. unfold dial_error_log. apply map_ext. intros p.
  rewrite Hn, <- !names_lookup, Hb. reflexivity.
Qed.

(** As long as the dials fail, the walk counts an error on each
    candidate and goes on with the next one. *)
Lemma connectTCP_walk_failures (pre rest : list nat) (k : nat)
  (s : Service.t) :
  (forall p, In p pre -> (p < length (Backends s))%nat) ->
  (forall j nw ad, (k <= j < k + length pre)%nat ->
                   exists e, dial j nw ad = DialErr e) ->
  connectTCP_walk dial cliConn k s (pre ++ rest) =
    ('(s', ev, ok) ←
       connectTCP_walk dial cliConn (k + length pre)
         (set_Backends (count_errors (Backends s) pre) s) rest;
     Some (s', dial_error_log s pre ++ ev, ok)).
Proof.
  revert k s. induction pre as [| p pre IH]; intros k s Hv Hd.
  - cbn. rewrite Nat.add_0_r, set_Backends_same.
    destruct (connectTCP_walk dial cliConn k s rest) as [[[s' ev] ok] |];
      reflexivity.
  - cbn [app connectTCP_walk].
    destruct (lookup_lt_is_Some_2 (Backends s) p) as [b Hb];
      [apply Hv; now left |].
    rewrite Hb. cbn [mbind option_bind].
    destruct (Hd k (Backend.Network b) (Backend.Addr b)) as [e He];
      [cbn; lia |].
    rewrite He.
    rewrite IH.
    + cbn [Backends set_Backends length].
      replace (S k + length pre)%nat with (k + S (length pre))%nat by lia.
      change (count_errors (Backends s) (p :: pre))
        with (count_errors (count_error (Backends s) p) pre).
      unfold count_error. rewrite Hb.
      change (set_Backends ?x (set_Backends ?y s)) with (set_Backends x s).
      rewrite (dial_error_log_names s).
      * cbn [dial_error_log map]. rewrite Hb. cbn [fmap option_fmap option_map default].
        match goal with
        | |- context [connectTCP_walk ?d ?c ?n ?st rest] =>
            destruct (connectTCP_walk d c n st rest) as [[[s' ev] ok] |]
        end; reflexivity.
      * reflexivity.
      * cbn [Backends set_Backends].
        apply (names_insert_same _ _ b); [exact Hb | reflexivity].
    + intros q Hq. cbn [Backends set_Backends]. rewrite length_insert.
      apply Hv. now right.
    + intros j nw ad Hj. apply Hd. cbn. lia.
Qed.

(** C2, as the code has it: while the dials fail, each failure adds
    one to the errors of the backend dialled and the walk goes on with
    the next candidate; when every candidate of the list has failed,
    the empty list included, an error is logged and the client
    connection is closed, and the service's own error counter is what
    it was. *)
Theorem connectTCP_failed_dials (s : Service.t) (pre rest : list nat) :
  (forall p, In p pre -> (p < length (Backends s))%nat) ->
  (forall j nw ad, (j < length pre)%nat -> exists e, dial j nw ad = DialErr e) ->
  let s1 := set_Backends (count_errors (Backends s) pre) s in
  (forall p b,
      Backends s !! p = Some b ->
      Backends s1 !! p =
        Some (if (count_occ Nat.eq_dec pre p =? 0)%nat then b
              else Backend.set_Errors
                     (wrap64 (Backend.Errors b
                              + Z.of_nat (count_occ Nat.eq_dec pre p))) b)) /\
  connectTCP_walk dial cliConn 0 s (pre ++ rest) =
    ('(s', ev, ok) ← connectTCP_walk dial cliConn (length pre) s1 rest;
     Some (s', dial_error_log s pre ++ ev, ok)) /\
  (next s <> None ->
   connectTCP dial s pre cliConn =
     Some (s1, dial_error_log s pre
               ++ [Errorf (MsgNoBackend (Name s)); Close cliConn])) /\
  Errors s1 = Errors s.
Proof.
  intros Hv Hd s1.
  assert (Hw : forall tl,
             connectTCP_walk dial cliConn 0 s (pre ++ tl) =
             ('(s', ev, ok) ← connectTCP_walk dial cliConn (length pre) s1 tl;
              Some (s', dial_error_log s pre ++ ev, ok))).
  { intros tl. apply (connectTCP_walk_failures pre tl 0 s Hv).
    intros j nw ad Hj. apply Hd. lia. }
  split; [| split; [| split]].
  - intros p b Hb. apply count_errors_lookup. exact Hb.
  - apply Hw.
  - intros Hnext. unfold connectTCP.
    destruct (next s) as [n |]; [| contradiction]. cbn [mbind option_bind].
    rewrite <- (app_nil_r pre) at 1. rewrite Hw. cbn.
    rewrite app_nil_r. reflexivity.
  - reflexivity.
Qed.

End ConnectTCP.

Section ConnectTCPExamples.

Import Service.

(** C2 on the service built from [cfg_web], with the candidates b1, b2
    and b1 again, none of which can be reached. *)
Lemma connectTCP_failed_dials_witness :
  connectTCP dial_refused web_service [0; 1; 0]%nat 7%nat =
    Some (set_Backends (count_errors (Backends web_service) [0; 1; 0]%nat)
            web_service,
          dial_error_log web_service [0; 1; 0]%nat
          ++ [Errorf (MsgNoBackend "web"); Close 7%nat]).
Proof.
  apply (connectTCP_failed_dials dial_refused 7%nat web_service
           [0; 1; 0]%nat []).
  - cbn. intros p [<- | [<- | [<- | []]]]; lia.
  - intros j nw ad _. eexists. reflexivity.
  - discriminate.
Defined.

(** C2 as the claim has it fails: with no candidate at all, and with
    two candidates that both refuse, the client connection is closed and
    the service's error counter stays at 0 instead of going to 1. *)
Lemma connectTCP_exhausted_keeps_service_errors :
  (exists s' ev,
      connectTCP dial_refused web_service [] 7%nat = Some (s', ev) /\
      In (Close 7%nat) ev /\
      Errors web_service = 0 /\ Errors s' = 0 /\
      Errors s' <> wrap64 (Errors web_service + 1)) /\
  (exists s' ev,
      connectTCP dial_refused web_service [0; 1]%nat 7%nat = Some (s', ev) /\
      In (Close 7%nat) ev /\
      Backend.Errors <$> Backends s' = [1; 1] /\
      Errors s' = 0 /\
      Errors s' <> wrap64 (Errors web_service + 1)).
Proof.
  split; eexists _, _; (split; [vm_compute; reflexivity |]);
    repeat split; try (vm_compute; discriminate); cbn; tauto.
Qed.

End ConnectTCPExamples.

(** ** The invariant of reachable services *)

Section Invariant.

Import Service.










(** What [remove] returns, for a list of distinct names. *)
Lemma remove_inv (s : Service.t) (name : string) (s' : Service.t)
  (ev : list Event) (r : bool) :
  NoDup (names (Backends s)) ->
  remove s name = Some (s', ev, r) ->
  s' = set_Backends (Backends s') s /\
  NoDup (names (Backends s')) /\
  (forall b, In b (Backends s') -> In b (Backends s)).
Proof.
  intros Hnd H. pose proof (remove_result s name) as R.
  destruct (find_name name (Backends s)) as [[i b] |] eqn:E.
  - destruct R as (lastb & Hl & R). rewrite R in H. inversion H; subst.
    clear H R. cbn [Backends set_Backends].
    apply find_name_Some in E as [Hi Hn].
    pose proof (swap_remove_Permutation _ _ _ _ Hi Hl) as HP.
    split; [reflexivity |]. split.
    + pose proof (names_Permutation _ _ HP) as HPn. cbn in HPn.
      rewrite HPn in Hnd. apply NoDup_cons in Hnd as [_ Hnd]. exact Hnd.
    + intros b' Hin. eapply Permutation_in; [symmetry; exact HP |].
      right. exact Hin.
  - rewrite R in H. inversion H; subst.
    split; [symmetry; apply set_Backends_same |].
    split; [exact Hnd | tauto].
Qed.









End Invariant.

(** ** Configuration round trip *)

Section RoundTrip.

Import Service.



(** Adding configurations whose names are new and distinct appends one
    backend for each, in order. *)
Lemma add_all_fresh (cfgs : list BackendConfig.t) (s : Service.t) :
  NoDup (names (Backends s) ++ map BackendConfig.Name cfgs) ->
  (cfgs <> [] -> (3 <= String.length (Network s))%nat) ->
  Forall (fun c =>
            (3 <= String.length (Backend.Network (NewBackend c)))%nat) cfgs ->
  exists ev,
    add_all s cfgs =
      Some (set_Backends
              (Backends s
               ++ map (fun c =>
                         Backend.attach (ServerTimeout s) (DialTimeout s)
                           (ms_to_duration (CheckInterval s)) (NewBackend c))
                      cfgs) s,
            ev).
Proof.
  revert s. induction cfgs as [| c cfgs IH]; intros s Hnd Hs Hc.
  - exists []. cbn. rewrite app_nil_r, set_Backends_same. reflexivity.
  - apply Forall_cons in Hc as [Hc1 Hc].
    assert (Hs' : (3 <= String.length (Network s))%nat)
      by (apply Hs; discriminate).
    destruct (add_defined s (NewBackend c) Hs' Hc1) as (s1 & e1 & Hadd).
    pose proof Hadd as Hinv.
    apply add_inv in Hinv as (_ & _ & log & _ & Hinv).
    assert (Hfresh : find_name (Backend.Name (NewBackend c)) (Backends s)
                     = None).
    { apply find_name_None. intros Hin. cbn in Hnd.
      apply NoDup_app in Hnd as (_ & Hdis & _).
      apply (Hdis (BackendConfig.Name c)).
      - apply list_elem_of_In. exact Hin.
      - left. }
    rewrite Hfresh in Hinv. destruct Hinv as [-> ->].
    cbn [add_all]. rewrite Hadd. cbn [mbind option_bind].
    match goal with
    | |- context [add_all ?st cfgs] => destruct (IH st) as [e2 IH2]
    end.
    + cbn [Backends set_Backends]. unfold names in *.
      rewrite map_app. cbn [map]. rewrite <- app_assoc. exact Hnd.
    + intros _. exact Hs'.
    + exact Hc.
    + rewrite IH2. cbn. eexists. rewrite <- app_assoc. reflexivity.
Qed.





End RoundTrip.

(** ** More on comparing configurations *)

Section ComparisonMore.

Lemma BackendConfig_Equal_defaults (b other : BackendConfig.t) :
  BackendConfig.Equal b other
  = bool_decide (backend_defaults b = backend_defaults other).
Proof.
  unfold BackendConfig.Equal, backend_defaults.
  destruct b as [n a c w nw], other as [n' a' c' w' nw'].
  cbn [BackendConfig.Weight BackendConfig.Network BackendConfig.Name
       BackendConfig.Addr BackendConfig.CheckAddr].
  destruct (w' =? 0), (w =? 0);
    cbn [BackendConfig.Weight BackendConfig.Network BackendConfig.Name
         BackendConfig.Addr BackendConfig.CheckAddr
         BackendConfig.set_Weight BackendConfig.set_Network];
    destruct (String.eqb nw "");
    cbn [BackendConfig.Weight BackendConfig.Network BackendConfig.Name
         BackendConfig.Addr BackendConfig.CheckAddr
         BackendConfig.set_Weight BackendConfig.set_Network];
    destruct (String.eqb nw' ""); reflexivity.
Qed.

(** X1: [BackendConfig.Equal] is an equivalence: every configuration
    equals itself, the order of the arguments does not matter, and
    equality carries over a middle configuration. *)
Theorem BackendConfig_Equal_equivalence :
  (forall b, BackendConfig.Equal b b = true) /\
  (forall a b, BackendConfig.Equal a b = BackendConfig.Equal b a) /\
  (forall a b c,
      BackendConfig.Equal a b = true -> BackendConfig.Equal b c = true ->
      BackendConfig.Equal a c = true).
Proof.
  split; [| split].
  - intros b. rewrite BackendConfig_Equal_defaults.
    apply bool_decide_eq_true. reflexivity.
  - intros a b. rewrite !BackendConfig_Equal_defaults.
    apply bool_decide_ext. split; congruence.
  - intros a b c. rewrite !BackendConfig_Equal_defaults.
    rewrite !bool_decide_eq_true. congruence.
Qed.

(** X1 on three spellings of one backend. *)
Lemma BackendConfig_Equal_equivalence_witness :
  BackendConfig.Equal (BackendConfig.mk "b1" "10.0.0.1:80" "" 0 "")
                      (BackendConfig.mk "b1" "10.0.0.1:80" "" 1 "tcp") = true.
Proof.
  apply (proj2 (proj2 BackendConfig_Equal_equivalence) _
           (BackendConfig.mk "b1" "10.0.0.1:80" "" 1 "")).
  - vm_compute. reflexivity.
  - vm_compute. reflexivity.
Defined.

Import ServiceConfig.

Local Ltac equal_step :=
  cbn [Name Addr VirtualHosts Balance CheckInterval Fall Rise ClientTimeout
       ServerTimeout DialTimeout ErrorPages Network Backends
       set_Balance set_CheckInterval set_Fall set_Rise set_Network
       set_Backends negb].

(** The balance setting [Equal] leaves in its second argument. *)
Lemma Equal_balance (bal bal' : string) :
  bal =
    (if negb (String.eqb bal bal') then
       if String.eqb bal "" && String.eqb bal' "RR" then ""%string
       else if String.eqb bal "RR" && String.eqb bal' "" then "RR"%string
       else bal'
     else bal')
  <-> same_balance bal bal'.
Proof.
  unfold same_balance.
  destruct (String.eqb bal bal') eqn:E; cbn [negb].
  - apply String.eqb_eq in E. tauto.
  - apply String.eqb_neq in E.
    destruct (String.eqb bal "") eqn:E1; cbn [andb].
    + apply String.eqb_eq in E1. subst bal.
      destruct (String.eqb bal' "RR") eqn:E2.
      * apply String.eqb_eq in E2. tauto.
      * apply String.eqb_neq in E2. cbn. intuition congruence.
    + apply String.eqb_neq in E1.
      destruct (String.eqb bal "RR") eqn:E3; cbn [andb].
      * apply String.eqb_eq in E3. subst bal.
        destruct (String.eqb bal' "") eqn:E4.
        -- apply String.eqb_eq in E4. tauto.
        -- apply String.eqb_neq in E4. intuition congruence.
      * apply String.eqb_neq in E3. intuition congruence.
Qed.

(** What [ServiceConfig.Equal] compares, field by field. *)
Lemma Equal_fields (s other : ServiceConfig.t) :
  Equal s other = true <->
  Name s = Name other /\ Addr s = Addr other /\
  VirtualHosts s = VirtualHosts other /\
  same_balance (Balance s) (Balance other) /\
  default_to 2000 (CheckInterval s) = default_to 2000 (CheckInterval other) /\
  default_to 2 (Fall s) = default_to 2 (Fall other) /\
  default_to 2 (Rise s) = default_to 2 (Rise other) /\
  ClientTimeout s = ClientTimeout other /\
  ServerTimeout s = ServerTimeout other /\
  DialTimeout s = DialTimeout other /\
  ErrorPages s = ErrorPages other /\
  (if String.eqb (Network s) "" then "tcp"%string else Network s)
  = Network other.
Proof.
  destruct s as [n a vh bal ci fl rs ct st dt ep nw bs].
  destruct other as [n' a' vh' bal' ci' fl' rs' ct' st' dt' ep' nw' bs'].
  unfold Equal. cbv zeta. equal_step.
  match goal with
  | |- bool_decide (?L = ?R) = true <-> _ =>
      assert (HL : L = mk n a vh bal (default_to 2000 ci) (default_to 2 fl)
                         (default_to 2 rs) ct st dt ep
                         (if String.eqb nw "" then "tcp"%string else nw) []);
      [| assert (HR : R = mk n' a' vh'
                   (if negb (String.eqb bal bal') then
                      if String.eqb bal "" && String.eqb bal' "RR"
                      then ""%string
                      else if String.eqb bal "RR" && String.eqb bal' ""
                      then "RR"%string
                      else bal'
                    else bal')
                   (default_to 2000 ci') (default_to 2 fl')
                   (default_to 2 rs') ct' st' dt' ep' nw' []);
         [| rewrite HL, HR]]
  end.
  - unfold default_to.
    destruct (ci =? 0); equal_step; destruct (rs =? 0); equal_step;
      destruct (fl =? 0); equal_step; destruct (String.eqb nw "");
      reflexivity.
  - unfold default_to.
    destruct (negb (String.eqb bal bal'));
      [destruct (String.eqb bal "" && String.eqb bal' "RR");
       [| destruct (String.eqb bal "RR" && String.eqb bal' "")] |];
      equal_step;
      destruct (ci' =? 0); equal_step; destruct (rs' =? 0); equal_step;
      destruct (fl' =? 0); reflexivity.
  - rewrite bool_decide_eq_true. rewrite <- Equal_balance. split.
    + intros H. injection H as H1 H2 H3 H4 H5 H6 H7 H8 H9 H10 H11 H12.
      repeat split; assumption.
    + intros (H1 & H2 & H3 & H4 & H5 & H6 & H7 & H8 & H9 & H10 & H11 & H12).
      cbn [Name Addr VirtualHosts Balance CheckInterval Fall Rise
           ClientTimeout ServerTimeout DialTimeout ErrorPages Network]
        in *.
      rewrite H1, H2, H3, <- H4, H5, H6, H7, H8, H9, H10, H11, H12.
      reflexivity.
Qed.

(** X2: what [ServiceConfig.Equal] compares.  The answer is true
    exactly when name, address, virtual hosts, the three timeouts and
    the error pages are the same, the balance settings are the same up
    to "" standing for "RR", check interval, fall and rise are the same
    once zero is read as 2000, 2 and 2, and the network of the second
    configuration is the network of the first with "" read as "tcp".
    The backends play no part, and a second configuration with an empty
    network is never equal to anything. *)
Theorem Equal_true_iff (s other : ServiceConfig.t) :
  (Equal s other = true <->
   Name s = Name other /\ Addr s = Addr other /\
   VirtualHosts s = VirtualHosts other /\
   same_balance (Balance s) (Balance other) /\
   default_to 2000 (CheckInterval s) = default_to 2000 (CheckInterval other) /\
   default_to 2 (Fall s) = default_to 2 (Fall other) /\
   default_to 2 (Rise s) = default_to 2 (Rise other) /\
   ClientTimeout s = ClientTimeout other /\
   ServerTimeout s = ServerTimeout other /\
   DialTimeout s = DialTimeout other /\
   ErrorPages s = ErrorPages other /\
   (if String.eqb (Network s) "" then "tcp"%string else Network s)
   = Network other) /\
  (Equal s other = true -> Network other <> ""%string).
Proof.
  split; [apply Equal_fields |].
  intros H. apply Equal_fields in H.
  destruct H as (_ & _ & _ & _ & _ & _ & _ & _ & _ & _ & _ & <-).
  destruct (String.eqb (Network s) "") eqn:E; [discriminate |].
  apply String.eqb_neq. exact E.
Qed.

(** X2 on a configuration that leaves every default out and one that
    spells them out. *)
Lemma Equal_true_iff_witness :
  Equal cfg_all_defaults cfg_tcp_network = true.
Proof.
  apply (proj1 (Equal_true_iff cfg_all_defaults cfg_tcp_network)).
  repeat split; try reflexivity.
  right. left. split; reflexivity.
Defined.

(** X3: a configuration is [Equal] to itself exactly when its network
    is not empty, and on configurations whose networks are not empty the
    order of the arguments of [Equal] does not matter. *)
Theorem Equal_symmetric_with_networks :
  (forall a, Equal a a = true <-> Network a <> ""%string) /\
  (forall a b,
      Network a <> ""%string -> Network b <> ""%string ->
      Equal a b = Equal b a).
Proof.
  split.
  - intros a. rewrite Equal_fields. unfold same_balance.
    destruct (String.eqb (Network a) "") eqn:E.
    + apply String.eqb_eq in E. rewrite E. split; [| congruence].
      intros (_ & _ & _ & _ & _ & _ & _ & _ & _ & _ & _ & H). discriminate.
    + apply String.eqb_neq in E. split; [intros _; exact E |].
      intros _. repeat split; try reflexivity. left. reflexivity.
  - intros a b Ha Hb. apply Bool.eq_true_iff_eq. rewrite !Equal_fields.
    apply String.eqb_neq in Ha, Hb. rewrite Ha, Hb.
    unfold same_balance. intuition congruence.
Qed.

(** X3 on the two configurations that differ in the balance default. *)
Lemma Equal_symmetric_with_networks_witness :
  Equal cfg_tcp_network (set_Balance "" cfg_tcp_network)
  = Equal (set_Balance "" cfg_tcp_network) cfg_tcp_network.
Proof.
  apply (proj2 Equal_symmetric_with_networks); vm_compute; discriminate.
Defined.

Lemma DeepEqual_next_true (a : BackendConfig.t) (bs : list BackendConfig.t) :
  NoDup (config_names bs) ->
  DeepEqual_next a bs = true ->
  forall b, In b bs -> BackendConfig.Name a = BackendConfig.Name b ->
            BackendConfig.Equal a b = true.
Proof.
  induction bs as [| x bs IH]; intros Hnd H b Hin Hn; [destruct Hin |].
  cbn in Hnd. apply NoDup_cons in Hnd as [Hx Hnd]. cbn in H.
  destruct (String.eqb (BackendConfig.Name a) (BackendConfig.Name x)) eqn:E.
  - apply String.eqb_eq in E. destruct Hin as [<- | Hin].
    + destruct (BackendConfig.Equal a x); [reflexivity | discriminate].
    + exfalso. apply Hx. rewrite <- E, Hn.
      apply list_elem_of_In. unfold config_names. apply in_map. exact Hin.
  - destruct Hin as [<- | Hin].
    + apply String.eqb_neq in E. contradiction.
    + apply IH; assumption.
Qed.

(** X4: what a true answer of [DeepEqual] tells.  The settings are
    [Equal], the backend lists have the same length, and, when the
    names in the second list are distinct, every backend of the first
    list is [BackendConfig.Equal] to the backend of the same name in the
    second list, if there is one. *)
Theorem DeepEqual_true_inv (s other : ServiceConfig.t) :
  DeepEqual s other = true ->
  Equal s other = true /\
  length (Backends s) = length (Backends other) /\
  (NoDup (config_names (Backends other)) ->
   forall a b, In a (Backends s) -> In b (Backends other) ->
               BackendConfig.Name a = BackendConfig.Name b ->
               BackendConfig.Equal a b = true).
Proof.
  unfold DeepEqual. intros H.
  destruct (length (Backends s) =? length (Backends other))%nat eqn:El;
    [| discriminate].
  destruct (Equal s other) eqn:Ee; [| discriminate]. cbn in H.
  apply Nat.eqb_eq in El. split; [reflexivity |]. split; [exact El |].
  intros Hnd. revert H. generalize (Backends s) as xs.
  induction xs as [| x xs IH]; intros H a b Ha Hb Hn; [destruct Ha |].
  cbn in H.
  destruct (DeepEqual_next x (Backends other)) eqn:Ex; [| discriminate].
  destruct Ha as [<- | Ha].
  - eapply DeepEqual_next_true; eauto.
  - eapply IH; eauto.
Qed.

(** X4 on a configuration compared with itself. *)
Lemma DeepEqual_true_inv_witness :
  Equal (cfg_one_backend "b1" "10.0.0.1:80")
        (cfg_one_backend "b1" "10.0.0.1:80") = true.
Proof.
  apply (DeepEqual_true_inv (cfg_one_backend "b1" "10.0.0.1:80")
           (cfg_one_backend "b1" "10.0.0.1:80")).
  vm_compute. reflexivity.
Defined.

End ComparisonMore.

(** ** Looking up backends *)

Section Lookup.

Import Service.

Lemma find_name_cons (name : string) (b : Backend.t) (bs : list Backend.t) :
  find_name name (b :: bs) =
    if decide (Backend.Name b = name) then Some (0%nat, b)
    else prod_map S id <$> find_name name bs.
Proof. reflexivity. Qed.

Lemma get_cons (name : string) (b : Backend.t) (bs : list Backend.t) :
  snd <$> find_name name (b :: bs) =
    if decide (Backend.Name b = name) then Some b
    else snd <$> find_name name bs.
Proof.
  rewrite find_name_cons. destruct (decide (Backend.Name b = name));
    [reflexivity |].
  destruct (find_name name bs) as [[i x] |]; reflexivity.
Qed.

Lemma get_insert_found (name : string) (bs : list Backend.t) (i : nat)
  (old b' : Backend.t) :
  find_name name bs = Some (i, old) -> Backend.Name b' = name ->
  snd <$> find_name name (<[i := b']> bs) = Some b'.
Proof.
  revert i. induction bs as [| x bs IH]; intros i H Hn; [discriminate |].
  rewrite find_name_cons in H.
  destruct (decide (Backend.Name x = name)) as [Hx | Hx].
  - inversion H; subst. cbn [insert list_insert]. rewrite get_cons.
    destruct (decide (Backend.Name b' = Backend.Name old));
      [reflexivity | contradiction].
  - destruct (find_name name bs) as [[j y] |] eqn:E; [| discriminate].
    cbn in H. inversion H; subst. cbn [insert list_insert].
    change (snd <$> find_name (Backend.Name b') (x :: <[j:=b']> bs)
            = Some b').
    rewrite get_cons.
    destruct (decide (Backend.Name x = Backend.Name b')); [contradiction |].
    apply (IH j); reflexivity.
Qed.

Lemma get_insert_other (name : string) (bs : list Backend.t) (i : nat)
  (old b' : Backend.t) :
  bs !! i = Some old -> Backend.Name old <> name -> Backend.Name b' <> name ->
  snd <$> find_name name (<[i := b']> bs) = snd <$> find_name name bs.
Proof.
  revert i. induction bs as [| x bs IH]; intros i Hi Ho Hb; [discriminate |].
  destruct i as [| i].
  - cbn in Hi. inversion Hi; subst. cbn [insert list_insert].
    rewrite !get_cons.
    destruct (decide (Backend.Name b' = name)); [contradiction |].
    destruct (decide (Backend.Name old = name)); [contradiction |].
    reflexivity.
  - cbn in Hi.
    change (<[S i:=b']> (x :: bs)) with (x :: <[i:=b']> bs).
    rewrite !get_cons.
    destruct (decide (Backend.Name x = name)); [reflexivity |].
    apply IH; assumption.
Qed.

Lemma get_app (name : string) (bs : list Backend.t) (b' : Backend.t) :
  snd <$> find_name name (bs ++ [b']) =
    match snd <$> find_name name bs with
    | Some b => Some b
    | None => if decide (Backend.Name b' = name) then Some b' else None
    end.
Proof.
  induction bs as [| x bs IH].
  - cbn [app]. rewrite get_cons.
    destruct (decide (Backend.Name b' = name)); reflexivity.
  - cbn [app]. rewrite !get_cons.
    destruct (decide (Backend.Name x = name)); [reflexivity | exact IH].
Qed.

(** X5: after [add] has returned, [get] with the name of the backend
    finds the backend that was added, with the settings of the service
    on it, and [get] with any other name finds what it found before. *)
Theorem get_after_add (s : Service.t) (backend : Backend.t)
  (s' : Service.t) (ev : list Event) :
  add s backend = Some (s', ev) ->
  get s' (Backend.Name backend) =
    Some (Backend.attach (ServerTimeout s) (DialTimeout s)
            (ms_to_duration (CheckInterval s)) backend) /\
  (forall name, name <> Backend.Name backend -> get s' name = get s name).
Proof.
  intros H. apply add_inv in H as (_ & _ & log & _ & H). unfold get.
  destruct (find_name (Backend.Name backend) (Backends s))
    as [[i old] |] eqn:E; destruct H as [-> _]; cbn [Backends set_Backends].
  - split.
    + apply (get_insert_found _ _ _ old); [exact E | reflexivity].
    + intros name Hn. apply find_name_Some in E as [Hi Ho].
      apply (get_insert_other _ _ _ old); [exact Hi | |]; cbn; congruence.
  - split.
    + rewrite get_app, E. cbn.
      destruct (decide (Backend.Name backend = Backend.Name backend));
        [reflexivity | contradiction].
    + intros name Hn. rewrite get_app.
      destruct (snd <$> find_name name (Backends s)); [reflexivity |].
      cbn. destruct (decide (Backend.Name backend = name));
        [congruence | reflexivity].
Qed.

(** X5 on the service built from [cfg_web], with a new backend b2. *)
Lemma get_after_add_witness :
  get (set_Backends
         (<[1%nat := Backend.attach 5000000 0 2000000000
                       (NewBackend (BackendConfig.mk "b2" "10.0.0.9:80" "" 0 ""))]>
            (Backends web_service)) web_service) "b2"
  = Some (Backend.attach 5000000 0 2000000000
            (NewBackend (BackendConfig.mk "b2" "10.0.0.9:80" "" 0 ""))).
Proof.
  apply (get_after_add web_service
           (NewBackend (BackendConfig.mk "b2" "10.0.0.9:80" "" 0 "")) _
           (snd (default (web_service, [])
                   (add web_service
                      (NewBackend
                         (BackendConfig.mk "b2" "10.0.0.9:80" "" 0 "")))))).
  vm_compute. reflexivity.
Defined.

(** With distinct names, [get] finds a backend exactly when it is in
    the list under that name. *)
Lemma get_Some_iff (bs : list Backend.t) (name : string) (b : Backend.t) :
  NoDup (names bs) ->
  (snd <$> find_name name bs = Some b <-> In b bs /\ Backend.Name b = name).
Proof.
  intros Hnd. split.
  - destruct (find_name name bs) as [[i x] |] eqn:E; [| discriminate].
    cbn. intros H. inversion H; subst.
    apply find_name_Some in E as [Hi Hn]. split; [| exact Hn].
    apply list_elem_of_In. eapply list_elem_of_lookup_2. exact Hi.
  - intros [Hin <-]. apply list_elem_of_In in Hin.
    apply list_elem_of_lookup in Hin as [i Hi].
    rewrite (find_name_unique _ _ _ Hnd Hi). reflexivity.
Qed.

(** The two ways [remove] can end. *)
Lemma remove_cases (s : Service.t) (name : string) (s' : Service.t)
  (ev : list Event) (r : bool) :
  remove s name = Some (s', ev, r) ->
  (r = true /\ s' = set_Backends (Backends s') s /\
   exists b, Backend.Name b = name /\ ev = [Printf (MsgRemoving
               (Backend.Network b) (Backend.Addr b) (Name s) (Addr s));
               Stop b] /\
             Permutation (Backends s) (b :: Backends s')) \/
  (r = false /\ s' = s /\ ev = [] /\ ~ In name (names (Backends s))).
Proof.
  intros H. pose proof (remove_result s name) as R.
  destruct (find_name name (Backends s)) as [[i b] |] eqn:E.
  - destruct R as (lastb & Hl & R). rewrite R in H. inversion H; subst.
    left. split; [reflexivity |]. split; [reflexivity |].
    apply find_name_Some in E as [Hi Hn]. exists b.
    split; [exact Hn |]. split; [reflexivity |].
    cbn [Backends set_Backends].
    apply (swap_remove_Permutation _ _ _ _ Hi Hl).
  - rewrite R in H. inversion H; subst. right.
    repeat split. apply find_name_None. exact E.
Qed.

(** X6: in a service with distinct backend names, after [remove] has
    returned, [get] with the removed name finds nothing and [get] with
    any other name finds what it found before, although [remove] may
    have moved a backend to another position. *)
Theorem get_after_remove (s : Service.t) (name : string) (s' : Service.t)
  (ev : list Event) (r : bool) :
  NoDup (names (Backends s)) ->
  remove s name = Some (s', ev, r) ->
  get s' name = None /\
  (forall name', name' <> name -> get s' name' = get s name').
Proof.
  intros Hnd H. pose proof (remove_inv _ _ _ _ _ Hnd H) as (_ & Hnd' & _).
  destruct (remove_cases _ _ _ _ _ H)
    as [(_ & _ & b & Hb & _ & HP) | (_ & -> & _ & Hno)]; unfold get.
  - pose proof (names_Permutation _ _ HP) as HPn. cbn in HPn.
    rewrite HPn in Hnd. apply NoDup_cons in Hnd as [Hnotin Hndb].
    split.
    + rewrite (proj2 (find_name_None name (Backends s'))); [reflexivity |].
      intros Hin. apply Hnotin. rewrite Hb. apply list_elem_of_In. exact Hin.
    + intros name' Hne. apply option_eq. intros x.
      rewrite (get_Some_iff _ _ _ Hnd').
      rewrite (get_Some_iff (Backends s)).
      2: { rewrite HPn. apply NoDup_cons. split; assumption. }
      split; intros [Hin Hx]; (split; [| exact Hx]).
      * eapply Permutation_in; [symmetry; exact HP |]. right. exact Hin.
      * eapply Permutation_in in Hin; [| exact HP].
        destruct Hin as [<- | Hin]; [congruence | exact Hin].
  - split; [| reflexivity].
    rewrite (proj2 (find_name_None name (Backends s)) Hno). reflexivity.
Qed.

(** X6 on the service built from [cfg_web], without backend b1. *)
Lemma get_after_remove_witness :
  get (set_Backends
         [Backend.mk "b2" "10.0.0.2:80" "10.0.0.2:81" 3 "tcp" true
            0 0 0 0 0 0 5000000 0 2000000000] web_service) "b1" = None.
Proof.
  apply (get_after_remove web_service "b1" _
           [Printf (MsgRemoving "tcp4" "10.0.0.3:80" "web" "127.0.0.1:8080");
            Stop (Backend.mk "b1" "10.0.0.3:80" "" 2 "tcp4" true 0 0 0 0 0 0
                    5000000 0 2000000000)] true).
  - apply (bool_decide_unpack _). vm_compute. exact I.
  - vm_compute. reflexivity.
Defined.

(** X7: adding a backend under a new name and removing it again gives
    back the service as it was; the backend added is started and then
    stopped. *)
Theorem remove_after_add (s : Service.t) (backend : Backend.t)
  (s1 : Service.t) (ev1 : list Event) :
  ~ In (Backend.Name backend) (names (Backends s)) ->
  add s backend = Some (s1, ev1) ->
  exists ev2,
    remove s1 (Backend.Name backend) = Some (s, ev2, true) /\
    lifecycle (ev1 ++ ev2) =
      [Start (Backend.attach (ServerTimeout s) (DialTimeout s)
                (ms_to_duration (CheckInterval s)) backend);
       Stop (Backend.attach (ServerTimeout s) (DialTimeout s)
               (ms_to_duration (CheckInterval s)) backend)].
Proof.
  intros Hfresh H. apply add_inv in H as (_ & _ & log & Hlog & H).
  apply find_name_None in Hfresh. rewrite Hfresh in H.
  destruct H as [-> ->].
  set (b' := Backend.attach (ServerTimeout s) (DialTimeout s)
               (ms_to_duration (CheckInterval s)) backend).
  assert (Hf : find_name (Backend.Name backend) (Backends s ++ [b'])
               = Some (length (Backends s), b')).
  { unfold find_name in *. apply list_find_Some. split; [| split].
    - rewrite lookup_app_r by lia. rewrite Nat.sub_diag. reflexivity.
    - reflexivity.
    - intros j y Hj Hlt. rewrite lookup_app_l in Hj by lia.
      rewrite list_find_None in Hfresh.
      rewrite Forall_forall in Hfresh. apply Hfresh.
      eapply list_elem_of_lookup_2. exact Hj. }
  unfold remove. cbn [Backends set_Backends]. rewrite Hf.
  rewrite length_app. cbn [length]. rewrite Nat.add_sub.
  rewrite lookup_app_r by lia. rewrite Nat.sub_diag. cbn.
  eexists. split.
  - rewrite insert_app_r_alt by lia. rewrite Nat.sub_diag. cbn.
    rewrite take_app_length.
    change (set_Backends (Backends s) (set_Backends ?x s))
      with (set_Backends (Backends s) s).
    rewrite set_Backends_same. reflexivity.
  - unfold lifecycle in *. rewrite <- !app_assoc, List.filter_app, Hlog.
    reflexivity.
Qed.

(** X7 on the service built from [cfg_web] and a UDP backend. *)
Lemma remove_after_add_witness :
  exists ev2,
    remove (set_Backends
              (Backends web_service
               ++ [Backend.attach 5000000 0 2000000000 udp_backend])
              web_service) "b3" = Some (web_service, ev2, true) /\
    lifecycle
      ([Printf (MsgAdding "udp" "10.0.0.4:53" "web" "127.0.0.1:8080");
        Errorf (MsgCannotUseNetwork "b3" "udp");
        Start (Backend.attach 5000000 0 2000000000 udp_backend)] ++ ev2) =
      [Start (Backend.attach 5000000 0 2000000000 udp_backend);
       Stop (Backend.attach 5000000 0 2000000000 udp_backend)].
Proof.
  apply (remove_after_add web_service udp_backend).
  - vm_compute. intros [H | [H | []]]; discriminate.
  - vm_compute. reflexivity.
Defined.

End Lookup.

(** ** What [NewService] builds *)

Section Building.

Import Service.

Lemma add_all_frame (cfgs : list BackendConfig.t) (s s' : Service.t)
  (ev : list Event) :
  add_all s cfgs = Some (s', ev) -> s' = set_Backends (Backends s') s.
Proof.
  revert s s' ev. induction cfgs as [| c cfgs IH]; intros s s' ev H.
  - cbn in H. inversion H; subst. symmetry. apply set_Backends_same.
  - cbn in H.
    destruct (add s (NewBackend c)) as [[s1 e1] |] eqn:E1; [| discriminate].
    cbn in H.
    destruct (add_all s1 cfgs) as [[s2 e2] |] eqn:E2; [| discriminate].
    cbn in H. inversion H; subst.
    apply IH in E2. apply add_inv in E1 as (_ & _ & log & _ & E1).
    assert (Hs1 : s1 = set_Backends (Backends s1) s).
    { destruct (find_name (Backend.Name (NewBackend c)) (Backends s))
        as [[i old] |]; destruct E1 as [-> _]; reflexivity. }
    rewrite E2, Hs1. reflexivity.
Qed.

(** The service [NewService] returns, up to its backend list, and its
    trace, up to the part of the backends. *)
Lemma NewService_shape (cfg : ServiceConfig.t) (s : Service.t)
  (ev : list Event) :
  NewService cfg = Some (s, ev) ->
  exists bs ev1,
    s = mk (ServiceConfig.Name cfg) (ServiceConfig.Addr cfg)
          (ServiceConfig.VirtualHosts cfg) bs (ServiceConfig.Balance cfg)
          (default_to 2000 (ServiceConfig.CheckInterval cfg))
          (default_to 2 (ServiceConfig.Fall cfg))
          (default_to 2 (ServiceConfig.Rise cfg))
          (ms_to_duration (ServiceConfig.ClientTimeout cfg))
          (ms_to_duration (ServiceConfig.ServerTimeout cfg))
          (ms_to_duration (ServiceConfig.DialTimeout cfg))
          0 0 0 0 0 0
          (if String.eqb (ServiceConfig.Network cfg) "" then "tcp"%string
           else ServiceConfig.Network cfg)
          (balancer_of (ServiceConfig.Balance cfg)) 0 0
          (ServiceConfig.ErrorPages cfg) /\
    add_all (set_Backends [] (set_next None s)) (ServiceConfig.Backends cfg)
      = Some (set_next None s, ev1) /\
    ev = ev1 ++ match balancer_of (ServiceConfig.Balance cfg) with
                | Some _ => []
                | None => [Printf (MsgInvalidBalance
                                     (ServiceConfig.Balance cfg))]
                end.
Proof.
  unfold NewService, balancer_of, default_to. intros H.
  match type of H with
  | context [add_all ?s0 _] => remember s0 as s0' eqn:Es0
  end.
  destruct (add_all s0' (ServiceConfig.Backends cfg)) as [[s1 ev1] |] eqn:E;
    [| discriminate].
  cbn [mbind option_bind] in H.
  pose proof (add_all_frame _ _ _ _ E) as Hs1.
  exists (Backends s1), ev1.
  assert (Hs0 : s0' =
    mk (ServiceConfig.Name cfg) (ServiceConfig.Addr cfg)
       (ServiceConfig.VirtualHosts cfg) [] (ServiceConfig.Balance cfg)
       (if ServiceConfig.CheckInterval cfg =? 0 then 2000
        else ServiceConfig.CheckInterval cfg)
       (if ServiceConfig.Fall cfg =? 0 then 2 else ServiceConfig.Fall cfg)
       (if ServiceConfig.Rise cfg =? 0 then 2 else ServiceConfig.Rise cfg)
       (ms_to_duration (ServiceConfig.ClientTimeout cfg))
       (ms_to_duration (ServiceConfig.ServerTimeout cfg))
       (ms_to_duration (ServiceConfig.DialTimeout cfg))
       0 0 0 0 0 0
       (if String.eqb (ServiceConfig.Network cfg) "" then "tcp"%string
        else ServiceConfig.Network cfg)
       None 0 0 (ServiceConfig.ErrorPages cfg)).
  { subst s0'.
    destruct (ServiceConfig.CheckInterval cfg =? 0) eqn:E1;
      destruct (ServiceConfig.Rise cfg =? 0) eqn:E2;
      destruct (ServiceConfig.Fall cfg =? 0) eqn:E3;
      destruct (String.eqb (ServiceConfig.Network cfg) "") eqn:E4;
      do 4 (cbn; rewrite ?E1, ?E2, ?E3, ?E4); reflexivity. }
  clear Es0. subst s0'.
  destruct s1 as [sn sa svh sbs sbal sci sfl srs sct sst sdt ssent srcvd
                  serr shc she sha snw snext slb slc sep].
  cbn in Hs1. injection Hs1; intros; subst.
  destruct (String.eqb (ServiceConfig.Balance cfg) "RR"
            || String.eqb (ServiceConfig.Balance cfg) "");
    [| destruct (String.eqb (ServiceConfig.Balance cfg) "LC")];
    injection H as <- <-; rewrite ?app_nil_r;
    (split; [reflexivity |]); (split; [exact E | reflexivity]).
Qed.

Lemma add_attached (s : Service.t) (backend : Backend.t) (s' : Service.t)
  (ev : list Event) :
  Forall (attached_to s) (Backends s) -> add s backend = Some (s', ev) ->
  Forall (attached_to s') (Backends s').
Proof.
  intros HF H. apply add_inv in H as (_ & _ & log & _ & H).
  assert (Hb : attached_to s
                 (Backend.attach (ServerTimeout s) (DialTimeout s)
                    (ms_to_duration (CheckInterval s)) backend))
    by (repeat split).
  destruct (find_name (Backend.Name backend) (Backends s)) as [[i old] |];
    destruct H as [-> _]; cbn [Backends set_Backends].
  - apply Forall_insert; assumption.
  - apply Forall_app. split; [exact HF |]. constructor; [exact Hb |].
    constructor.
Qed.

Lemma add_all_attached (cfgs : list BackendConfig.t) (s s' : Service.t)
  (ev : list Event) :
  Forall (attached_to s) (Backends s) -> add_all s cfgs = Some (s', ev) ->
  Forall (attached_to s') (Backends s').
Proof.
  revert s s' ev. induction cfgs as [| c cfgs IH]; intros s s' ev HF H.
  - cbn in H. inversion H; subst. exact HF.
  - cbn in H.
    destruct (add s (NewBackend c)) as [[s1 e1] |] eqn:E1; [| discriminate].
    cbn in H.
    destruct (add_all s1 cfgs) as [[s2 e2] |] eqn:E2; [| discriminate].
    cbn in H. inversion H; subst.
    eapply IH; [| exact E2]. eapply add_attached; eauto.
Qed.

(** X8: every backend of a service built by [NewService] is marked up
    and carries the server timeout, the dial timeout and the check
    interval of the service, defaults applied. *)
Theorem NewService_backends_attached (cfg : ServiceConfig.t)
  (s : Service.t) (ev : list Event) :
  NewService cfg = Some (s, ev) ->
  Forall (attached_to s) (Backends s) /\
  ServerTimeout s = ms_to_duration (ServiceConfig.ServerTimeout cfg) /\
  DialTimeout s = ms_to_duration (ServiceConfig.DialTimeout cfg) /\
  CheckInterval s = default_to 2000 (ServiceConfig.CheckInterval cfg).
Proof.
  intros H. apply NewService_shape in H as (bs & ev1 & Hs & Hadd & _).
  split.
  - apply add_all_attached in Hadd; [exact Hadd | constructor].
  - rewrite Hs. repeat split.
Qed.

(** X8 on the service built from [cfg_web]. *)
Lemma NewService_backends_attached_witness :
  Forall (attached_to web_service) (Backends web_service).
Proof.
  apply (NewService_backends_attached cfg_web web_service
           (snd (default (web_service, []) (NewService cfg_web)))).
  vm_compute. reflexivity.
Defined.

Lemma duration_ms_exact (t : Z) :
  ms_range t -> duration_to_ms (ms_to_duration t) = t.
Proof.
  unfold ms_range, duration_to_ms, ms_to_duration, Millisecond. intros H.
  rewrite wrap64_id by (unfold int64_range; lia).
  apply Z.quot_mul. lia.
Qed.

Lemma NewBackend_Config_exact (c : BackendConfig.t) (rw dl ck : Z) :
  backend_config_normal c ->
  Backend.Config (Backend.attach rw dl ck (NewBackend c)) = c.
Proof.
  intros [Hw Hn]. destruct c as [n a ca w nw].
  unfold Backend.Config, Backend.attach, NewBackend.
  cbn [Backend.Name Backend.Addr Backend.CheckAddr Backend.Weight
       Backend.Network BackendConfig.Name BackendConfig.Addr
       BackendConfig.CheckAddr BackendConfig.Weight BackendConfig.Network]
    in *.
  apply Z.eqb_neq in Hw. rewrite Hw.
  destruct (String.eqb nw "") eqn:E; [| reflexivity].
  apply String.eqb_eq in E. subst nw. cbn in Hn. lia.
Qed.

(** X9: a configuration that spells its defaults out, lists every
    backend once and has timeouts that fit is accepted by [NewService],
    and the configuration of the service built is that configuration. *)
Theorem Config_of_NewService (cfg : ServiceConfig.t) :
  config_normal cfg ->
  exists s ev, NewService cfg = Some (s, ev) /\ Config s = cfg.
Proof.
  intros Hn.
  destruct (add_all_fresh (ServiceConfig.Backends cfg)
      (mk (ServiceConfig.Name cfg) (ServiceConfig.Addr cfg)
         (ServiceConfig.VirtualHosts cfg) [] (ServiceConfig.Balance cfg)
         (ServiceConfig.CheckInterval cfg) (ServiceConfig.Fall cfg)
         (ServiceConfig.Rise cfg)
         (ms_to_duration (ServiceConfig.ClientTimeout cfg))
         (ms_to_duration (ServiceConfig.ServerTimeout cfg))
         (ms_to_duration (ServiceConfig.DialTimeout cfg))
         0 0 0 0 0 0 (ServiceConfig.Network cfg) None 0 0
         (ServiceConfig.ErrorPages cfg)))
    as [ev Hfresh].
  { cbn. apply (normal_names _ Hn). }
  { cbn. apply (normal_family _ Hn). }
  { pose proof (normal_backends _ Hn) as HF.
    apply List.Forall_forall. intros c Hc.
    rewrite List.Forall_forall in HF. destruct (HF c Hc) as [_ Hlen].
    cbn. destruct (String.eqb (BackendConfig.Network c) "") eqn:E;
      [cbn; lia | exact Hlen]. }
  assert (Hcfg : forall n,
    Config
      (set_next n
         (set_Backends
            ([] ++ map (fun c =>
                 Backend.attach
                   (ms_to_duration (ServiceConfig.ServerTimeout cfg))
                   (ms_to_duration (ServiceConfig.DialTimeout cfg))
                   (ms_to_duration (ServiceConfig.CheckInterval cfg))
                   (NewBackend c))
               (ServiceConfig.Backends cfg))
            (mk (ServiceConfig.Name cfg) (ServiceConfig.Addr cfg)
               (ServiceConfig.VirtualHosts cfg) [] (ServiceConfig.Balance cfg)
               (ServiceConfig.CheckInterval cfg) (ServiceConfig.Fall cfg)
               (ServiceConfig.Rise cfg)
               (ms_to_duration (ServiceConfig.ClientTimeout cfg))
               (ms_to_duration (ServiceConfig.ServerTimeout cfg))
               (ms_to_duration (ServiceConfig.DialTimeout cfg))
               0 0 0 0 0 0 (ServiceConfig.Network cfg) None 0 0
               (ServiceConfig.ErrorPages cfg))))
    = cfg).
  { intros n. unfold Config. cbn.
    rewrite !duration_ms_exact
      by (first [apply (normal_ClientTimeout _ Hn)
                | apply (normal_ServerTimeout _ Hn)
                | apply (normal_DialTimeout _ Hn)]).
    rewrite map_map.
    rewrite (map_ext_in _ id).
    - rewrite map_id. destruct cfg. reflexivity.
    - intros c Hc. apply NewBackend_Config_exact.
      pose proof (normal_backends _ Hn) as HF.
      rewrite List.Forall_forall in HF. apply HF, Hc. }
  unfold NewService.
  cbn [CheckInterval Rise Fall Network set_CheckInterval set_Rise set_Fall
       set_Network].
  rewrite (proj2 (Z.eqb_neq _ _) (normal_CheckInterval _ Hn)).
  cbn [CheckInterval Rise Fall Network set_CheckInterval set_Rise set_Fall
       set_Network].
  rewrite (proj2 (Z.eqb_neq _ _) (normal_Rise _ Hn)).
  cbn [CheckInterval Rise Fall Network set_CheckInterval set_Rise set_Fall
       set_Network].
  rewrite (proj2 (Z.eqb_neq _ _) (normal_Fall _ Hn)).
  cbn [CheckInterval Rise Fall Network set_CheckInterval set_Rise set_Fall
       set_Network].
  rewrite (proj2 (String.eqb_neq _ _) (normal_Network _ Hn)).
  rewrite Hfresh. cbn [mbind option_bind].
  cbn [ServerTimeout DialTimeout CheckInterval Backends] in *.
  destruct (String.eqb (ServiceConfig.Balance cfg) "RR"
            || String.eqb (ServiceConfig.Balance cfg) "").
  { eexists _, _. split; [reflexivity | apply Hcfg]. }
  destruct (String.eqb (ServiceConfig.Balance cfg) "LC").
  { eexists _, _. split; [reflexivity | apply Hcfg]. }
  eexists _, _. split; [reflexivity | exact (Hcfg None)].
Qed.

(** X9 on a configuration with one backend. *)
Lemma Config_of_NewService_witness :
  exists s ev,
    NewService (cfg_one_backend "b1" "10.0.0.1:80") = Some (s, ev) /\
    Config s = cfg_one_backend "b1" "10.0.0.1:80".
Proof.
  apply Config_of_NewService. constructor.
  - vm_compute. discriminate.
  - vm_compute. discriminate.
  - vm_compute. discriminate.
  - vm_compute. discriminate.
  - intros _. vm_compute. lia.
  - vm_compute. split; discriminate.
  - vm_compute. split; discriminate.
  - vm_compute. split; discriminate.
  - apply (bool_decide_unpack _). vm_compute. exact I.
  - constructor; [| constructor]. split; [vm_compute; discriminate |].
    vm_compute. lia.
Defined.

Lemma default_to_idem (d x : Z) :
  d <> 0 -> default_to d (default_to d x) = default_to d x.
Proof.
  intros Hd. unfold default_to. destruct (x =? 0) eqn:E.
  - apply Z.eqb_neq in Hd. rewrite Hd. reflexivity.
  - rewrite E. reflexivity.
Qed.

(** X10: a configuration (the receiver of [Equal]) is [Equal] to the
    snapshot of the service [NewService] built from it, provided its
    timeouts fit; with the snapshot as the receiver the answer is true
    exactly when the configuration names its network. *)
Theorem Equal_Config_of_NewService (cfg : ServiceConfig.t) (s : Service.t)
  (ev : list Event) :
  NewService cfg = Some (s, ev) ->
  ms_range (ServiceConfig.ClientTimeout cfg) ->
  ms_range (ServiceConfig.ServerTimeout cfg) ->
  ms_range (ServiceConfig.DialTimeout cfg) ->
  ServiceConfig.Equal cfg (Config s) = true /\
  (ServiceConfig.Equal (Config s) cfg = true <->
   ServiceConfig.Network cfg <> ""%string).
Proof.
  intros H H1 H2 H3. apply NewService_shape in H as (bs & ev1 & -> & _ & _).
  rewrite !Equal_fields. unfold Config.
  cbn [Name Addr VirtualHosts Backends Balance CheckInterval Fall Rise
       ClientTimeout ServerTimeout DialTimeout errPagesCfg Network
       ServiceConfig.Name ServiceConfig.Addr ServiceConfig.VirtualHosts
       ServiceConfig.Balance ServiceConfig.CheckInterval ServiceConfig.Fall
       ServiceConfig.Rise ServiceConfig.ClientTimeout
       ServiceConfig.ServerTimeout ServiceConfig.DialTimeout
       ServiceConfig.ErrorPages ServiceConfig.Network].
  rewrite !duration_ms_exact by assumption.
  rewrite !default_to_idem by discriminate.
  split.
  - repeat split; try reflexivity. left. reflexivity.
  - destruct (String.eqb (ServiceConfig.Network cfg) "") eqn:E.
    + apply String.eqb_eq in E. rewrite E. cbn. split; [| congruence].
      intros (_ & _ & _ & _ & _ & _ & _ & _ & _ & _ & _ & Hn).
      discriminate.
    + rewrite E. apply String.eqb_neq in E. split; [intros _; exact E |].
      intros _. repeat split; try reflexivity. left. reflexivity.
Qed.

(** X10 on the configuration that leaves every default out. *)
Lemma Equal_Config_of_NewService_witness :
  ServiceConfig.Equal cfg_all_defaults
    (Config (set_next (Some roundRobin)
               (mk "web" "127.0.0.1:8080" None [] "" 2000 2 2 0 0 0
                  0 0 0 0 0 0 "tcp" None 0 0 None))) = true.
Proof.
  apply (Equal_Config_of_NewService cfg_all_defaults _ []).
  - vm_compute. reflexivity.
  - vm_compute. split; discriminate.
  - vm_compute. split; discriminate.
  - vm_compute. split; discriminate.
Defined.

(** X11: [NewService] selects round robin for the balance settings "RR"
    and "", least connections for "LC", and for any other setting logs
    the setting as invalid and leaves the balancer nil; on such a
    service every call of [connectTCP] panics. *)
Theorem NewService_balancer (cfg : ServiceConfig.t) (s : Service.t)
  (ev : list Event) :
  NewService cfg = Some (s, ev) ->
  next s = balancer_of (ServiceConfig.Balance cfg) /\
  (ServiceConfig.Balance cfg <> "RR"%string ->
   ServiceConfig.Balance cfg <> ""%string ->
   ServiceConfig.Balance cfg <> "LC"%string ->
   last ev = Some (Printf (MsgInvalidBalance (ServiceConfig.Balance cfg))) /\
   forall dial backends cliConn,
     connectTCP dial s backends cliConn = None).
Proof.
  intros H. apply NewService_shape in H as (bs & ev1 & -> & _ & ->).
  split; [reflexivity |]. intros H1 H2 H3.
  apply String.eqb_neq in H1, H2, H3. unfold balancer_of.
  rewrite H1, H2, H3. cbn [orb]. split; [apply last_snoc |].
  intros dial backends cliConn. unfold connectTCP, balancer_of.
  cbn [next]. rewrite ?H1, ?H2, ?H3. reflexivity.
Qed.

(** X11 on a configuration that asks for a balance method that does not
    exist. *)
Lemma NewService_balancer_witness :
  connectTCP dial_refused
    (mk "web" "127.0.0.1:8080" None [] "WRR" 2000 2 2 0 0 0
       0 0 0 0 0 0 "tcp" None 0 0 None) [] 7%nat = None.
Proof.
  apply (NewService_balancer (ServiceConfig.set_Balance "WRR" cfg_tcp_network)
           _ [Printf (MsgInvalidBalance "WRR")]).
  - vm_compute. reflexivity.
  - discriminate.
  - discriminate.
  - discriminate.
Defined.

End Building.

(** ** Started and stopped backends *)

Section Lifecycle.

Import Service.

Lemma running_app (e1 e2 : list Event) (acc : list Backend.t) :
  running (e1 ++ e2) acc = running e2 (running e1 acc).
Proof. unfold running. apply fold_left_app. Qed.

(** Log lines start and stop nothing. *)
Lemma running_log (log : list Event) (acc : list Backend.t) :
  lifecycle log = [] -> running log acc = acc.
Proof.
  revert acc. induction log as [| e log IH]; intros acc H; [reflexivity |].
  destruct e; cbn in H; try discriminate; cbn; apply IH; exact H.
Qed.

Lemma remove_one_Permutation (b : Backend.t) (l : list Backend.t) :
  In b l -> Permutation l (b :: remove_one b l).
Proof.
  induction l as [| x l IH]; intros H; [destruct H |]. cbn.
  destruct (decide (x = b)) as [-> | Hne]; [reflexivity |].
  destruct H as [H | H]; [contradiction |].
  rewrite perm_swap. apply perm_skip. apply IH. exact H.
Qed.

Lemma insert_Permutation {A : Type} (l : list A) (i : nat) (old x : A) :
  l !! i = Some old -> Permutation (x :: l) (old :: <[i := x]> l).
Proof.
  revert i. induction l as [| y l IH]; intros i H; [discriminate |].
  destruct i as [| i]; cbn in H.
  - inversion H; subst. cbn. apply perm_swap.
  - change (<[S i:=x]> (y :: l)) with (y :: <[i:=x]> l).
    rewrite perm_swap. rewrite (perm_swap y old). apply perm_skip.
    apply IH. exact H.
Qed.

(** [add] keeps the running backends in step with the list. *)
Lemma add_running (acc : list Backend.t) (s : Service.t)
  (backend : Backend.t) (s' : Service.t) (ev : list Event) :
  Permutation acc (Backends s) -> add s backend = Some (s', ev) ->
  Permutation (running ev acc) (Backends s').
Proof.
  intros HP H. apply add_inv in H as (_ & _ & log & Hlog & H).
  destruct (find_name (Backend.Name backend) (Backends s))
    as [[i old] |] eqn:E; destruct H as [-> ->];
    rewrite running_app, (running_log _ _ Hlog); cbn.
  - apply find_name_Some in E as [Hi _].
    assert (Hin : In old acc).
    { eapply Permutation_in; [symmetry; exact HP |].
      apply list_elem_of_In. eapply list_elem_of_lookup_2. exact Hi. }
    pose proof (remove_one_Permutation _ _ Hin) as H1.
    match goal with
    | |- Permutation (_ ++ [?b]) _ =>
        pose proof (insert_Permutation _ _ _ b Hi) as H2
    end.
    rewrite <- Permutation_cons_append.
    apply (Permutation_cons_inv (a := old)).
    rewrite <- H2, perm_swap. apply perm_skip.
    rewrite <- H1. exact HP.
  - apply Permutation_app_tail. exact HP.
Qed.

Lemma add_all_running (cfgs : list BackendConfig.t) (acc : list Backend.t)
  (s s' : Service.t) (ev : list Event) :
  Permutation acc (Backends s) -> add_all s cfgs = Some (s', ev) ->
  Permutation (running ev acc) (Backends s').
Proof.
  revert acc s s' ev.
  induction cfgs as [| c cfgs IH]; intros acc s s' ev HP H.
  - cbn in H. inversion H; subst. exact HP.
  - cbn in H.
    destruct (add s (NewBackend c)) as [[s1 e1] |] eqn:E1; [| discriminate].
    cbn in H.
    destruct (add_all s1 cfgs) as [[s2 e2] |] eqn:E2; [| discriminate].
    cbn in H. inversion H; subst. rewrite running_app.
    eapply IH; [| exact E2]. eapply add_running; eauto.
Qed.

(** X12: the backends that a trace has started and not stopped are the
    backends of the list.  This holds for the trace of [NewService],
    which stops every backend it replaces, and it is kept by [add] and
    by [remove]. *)
Theorem running_backends_are_listed :
  (forall cfg s ev,
      NewService cfg = Some (s, ev) ->
      Permutation (running ev []) (Backends s)) /\
  (forall s backend s' ev,
      add s backend = Some (s', ev) ->
      Permutation (running ev (Backends s)) (Backends s')) /\
  (forall s name s' ev r,
      remove s name = Some (s', ev, r) ->
      Permutation (running ev (Backends s)) (Backends s')).
Proof.
  split; [| split].
  - intros cfg s ev H.
    apply NewService_shape in H as (bs & ev1 & Hs & Hadd & ->).
    rewrite running_app.
    apply add_all_running with (acc := []) in Hadd; [| reflexivity].
    cbn [Backends set_next] in Hadd.
    destruct (balancer_of (ServiceConfig.Balance cfg)); exact Hadd.
  - intros s backend s' ev H. eapply add_running; [reflexivity | exact H].
  - intros s name s' ev r H.
    destruct (remove_cases _ _ _ _ _ H)
      as [(_ & _ & b & _ & -> & HP) | (_ & -> & -> & _)]; [| reflexivity].
    cbn. apply (Permutation_cons_inv (a := b)).
    rewrite <- HP. symmetry. apply remove_one_Permutation.
    eapply Permutation_in; [symmetry; exact HP | left; reflexivity].
Qed.

(** X12 on [cfg_web], which lists backend b1 twice. *)
Lemma running_backends_are_listed_witness :
  Permutation
    (running (snd (default (web_service, []) (NewService cfg_web))) [])
    (Backends web_service).
Proof.
  apply (proj1 running_backends_are_listed cfg_web).
  vm_compute. reflexivity.
Defined.

(** X13: applying the same defaults a second time changes nothing. *)
Theorem UpdateDefaults_idempotent (s : Service.t) (cfg : ServiceConfig.t) :
  UpdateDefaults (fst (UpdateDefaults s cfg)) cfg = UpdateDefaults s cfg.
Proof.
  unfold UpdateDefaults.
  destruct (ServiceConfig.CheckInterval cfg =? 0),
           (ServiceConfig.Fall cfg =? 0),
           (ServiceConfig.Rise cfg =? 0),
           (ServiceConfig.ClientTimeout cfg =? 0),
           (ServiceConfig.ServerTimeout cfg =? 0),
           (ServiceConfig.DialTimeout cfg =? 0);
    destruct s; reflexivity.
Qed.

End Lifecycle.

(** ** Statistics in closed form *)

Section StatisticsMore.

Import Service.

Lemma total_sum (f : Backend.t -> Z) (bs : list Backend.t) (start : Z) :
  total f start bs =
    match bs with
    | [] => start
    | _ => wrap64 (start + sum_of f bs)
    end.
Proof.
  revert start. induction bs as [| b bs IH]; intros start; [reflexivity |].
  change (total f start (b :: bs)) with (total f (wrap64 (start + f b)) bs).
  rewrite IH. destruct bs as [| b' bs].
  - cbn. f_equal. lia.
  - rewrite wrap64_add_l. f_equal. cbn. lia.
Qed.

Lemma total_sum_range (f : Backend.t -> Z) (bs : list Backend.t)
  (start : Z) :
  int64_range start -> total f start bs = wrap64 (start + sum_of f bs).
Proof.
  intros H. rewrite total_sum. destruct bs; [| reflexivity].
  cbn. rewrite Z.add_0_r. symmetry. apply wrap64_id. exact H.
Qed.

Lemma Stats_fold_Backends (bs : list Backend.t) (st : ServiceStat.t) :
  ServiceStat.Backends (fold_left Stats_add bs st)
  = ServiceStat.Backends st ++ map Backend.Stats bs.
Proof.
  revert st. induction bs as [| b bs IH]; intros st; cbn.
  - rewrite app_nil_r. reflexivity.
  - rewrite IH. cbn. rewrite <- app_assoc. reflexivity.
Qed.

(** X14: [Stats] lists the statistics of the backends in the order of
    the backend list.  Sent and received are the service's own counter
    plus the sum over the backends, and errors, connections and active
    are the sum over the backends alone, all reduced to 64 bits. *)
Theorem Stats_sums (s : Service.t) :
  ServiceStat.Backends (Stats s) = map Backend.Stats (Backends s) /\
  (int64_range (Sent s) ->
   ServiceStat.Sent (Stats s)
   = wrap64 (Sent s + sum_of Backend.Sent (Backends s))) /\
  (int64_range (Rcvd s) ->
   ServiceStat.Rcvd (Stats s)
   = wrap64 (Rcvd s + sum_of Backend.Rcvd (Backends s))) /\
  ServiceStat.Errors (Stats s) = wrap64 (sum_of Backend.Errors (Backends s)) /\
  ServiceStat.Conns (Stats s) = wrap64 (sum_of Backend.Conns (Backends s)) /\
  ServiceStat.Active (Stats s) = wrap64 (sum_of Backend.Active (Backends s)).
Proof.
  destruct (Stats_totals s) as (H1 & H2 & H3 & H4 & H5).
  rewrite H1, H2, H3, H4, H5.
  assert (H0 : int64_range 0) by (unfold int64_range; lia).
  split; [| split; [| split; [| split; [| split]]]].
  - unfold Stats. apply Stats_fold_Backends.
  - intros H. apply total_sum_range. exact H.
  - intros H. apply total_sum_range. exact H.
  - apply (total_sum_range _ _ 0 H0).
  - apply (total_sum_range _ _ 0 H0).
  - apply (total_sum_range _ _ 0 H0).
Qed.

(** X14 on the service built from [cfg_web]. *)
Lemma Stats_sums_witness :
  ServiceStat.Sent (Stats web_service)
  = wrap64 (Sent web_service + sum_of Backend.Sent (Backends web_service)).
Proof.
  destruct (Stats_sums web_service) as (_ & H & _). apply H.
  vm_compute. split; [discriminate | reflexivity].
Defined.

End StatisticsMore.

(** ** Connections *)

Section Connections.

Import Service.

(** X15: fail-over.  When the dials of the first candidates fail and
    the dial of the next candidate succeeds, [connectTCP] hands the
    client to that backend, having counted one error for each failed
    dial; it does not close the client, logs no missing backend and
    does not look at the candidates that follow. *)
Theorem connectTCP_failover (dial : Dialer) (cliConn : Conn)
  (s : Service.t) (pre : list nat) (q : nat) (rest : list nat)
  (b : Backend.t) (srvConn : Conn) :
  next s <> None ->
  (forall p, In p pre -> (p < length (Backends s))%nat) ->
  (forall j nw ad, (j < length pre)%nat -> exists e, dial j nw ad = DialErr e) ->
  count_errors (Backends s) pre !! q = Some b ->
  dial (length pre) (Backend.Network b) (Backend.Addr b) = DialOk srvConn ->
  connectTCP dial s (pre ++ q :: rest) cliConn =
    Some (set_Backends (count_errors (Backends s) pre) s,
          dial_error_log s pre ++ [Proxy b srvConn cliConn]).
Proof.
  intros Hnext Hv Hd Hq Hok. unfold connectTCP.
  destruct (next s) as [n |]; [| contradiction]. cbn [mbind option_bind].
  rewrite (connectTCP_walk_failures dial cliConn pre (q :: rest) 0 s Hv).
  2: { intros j nw ad Hj. apply Hd. lia. }
  cbn [connectTCP_walk Backends set_Backends Nat.add].
  rewrite Hq. cbn [mbind option_bind]. rewrite Hok. reflexivity.
Qed.

(** X15 on the service built from [cfg_web]: b1 refuses, b2 answers. *)
Lemma connectTCP_failover_witness :
  connectTCP
    (fun k _ _ => match k with
                  | O => DialErr (mkIOError "connection refused" (Some false))
                  | _ => DialOk 9%nat
                  end)
    web_service ([0%nat] ++ [1%nat]) 7%nat =
    Some (set_Backends (count_errors (Backends web_service) [0%nat])
            web_service,
          dial_error_log web_service [0%nat]
          ++ [Proxy (Backend.mk "b2" "10.0.0.2:80" "10.0.0.2:81" 3 "tcp" true
                       0 0 0 0 0 0 5000000 0 2000000000) 9%nat 7%nat]).
Proof.
  apply connectTCP_failover.
  - discriminate.
  - cbn. intros p [<- | []]. lia.
  - cbn. intros j nw ad Hj. destruct j; [eexists; reflexivity | lia].
  - reflexivity.
  - reflexivity.
Defined.

Lemma Config_insert (s : Service.t) (i : nat) (b b' : Backend.t) :
  Backends s !! i = Some b -> Backend.Config b' = Backend.Config b ->
  Config (set_Backends (<[i := b']> (Backends s)) s) = Config s.
Proof.
  intros Hi Hc. unfold Config. cbn [Name Addr VirtualHosts Balance
    CheckInterval Fall Rise ClientTimeout ServerTimeout DialTimeout
    errPagesCfg Network Backends set_Backends].
  f_equal. rewrite !map_is_fmap, list_fmap_insert.
  apply list_insert_id. rewrite list_lookup_fmap, Hi, Hc. reflexivity.
Qed.

Lemma connectTCP_walk_Config (dial : Dialer) (cliConn : Conn)
  (backends : list nat) (k : nat) (s s' : Service.t) (ev : list Event)
  (ok : bool) :
  connectTCP_walk dial cliConn k s backends = Some (s', ev, ok) ->
  Config s' = Config s.
Proof.
  revert k s s' ev ok.
  induction backends as [| p rest IH]; intros k s s' ev ok H.
  - cbn in H. congruence.
  - cbn [connectTCP_walk] in H.
    destruct (Backends s !! p) as [b |] eqn:Hb; [| discriminate].
    cbn [mbind option_bind] in H.
    destruct (dial k (Backend.Network b) (Backend.Addr b)) as [c | e].
    + inversion H; subst. reflexivity.
    + match type of H with
      | context [connectTCP_walk ?d ?c ?n ?st rest] =>
          destruct (connectTCP_walk d c n st rest) as [[[s2 e2] ok2] |] eqn:E;
            [| discriminate]
      end.
      cbn in H. inversion H; subst. apply IH in E. rewrite E.
      apply (Config_insert _ _ b); [exact Hb | reflexivity].
Qed.

Lemma runUDP_Config (script : list Datagram) (s : Service.t) :
  Config (fst (fst (runUDP s script))) = Config s.
Proof.
  revert s. induction script as [| d rest IH]; intros s; [reflexivity |].
  cbn [runUDP].
  assert (Hr : Config (fst (fst (runUDP_round s d))) = Config s).
  { unfold runUDP_round, runUDP_forward.
    destruct (rd_err d) as [e |];
      [destruct (String.eqb (err_text e) closed_text);
       [reflexivity | destruct (is_temporary e); [| reflexivity]] |];
      (destruct (rd_n d =? 0); [reflexivity |]);
      (destruct (rr d); [| reflexivity]);
      (destruct (wr_err d) as [e' |];
       [destruct (is_temporary e') |]); reflexivity. }
  destruct (runUDP_round s d) as [[s1 e1] [|]]; cbn [fst] in Hr.
  - specialize (IH s1). destruct (runUDP s1 rest) as [[s2 e2] l].
    cbn [fst] in *. congruence.
  - exact Hr.
Qed.

(** X16: traffic does not change the configuration.  Whatever
    [connectTCP], [Dial] and the datagram loop do to a service, its
    configuration snapshot is the one before. *)
Theorem traffic_keeps_Config :
  (forall dial s backends cliConn s' ev,
      connectTCP dial s backends cliConn = Some (s', ev) ->
      Config s' = Config s) /\
  (forall dial isTCP s nw addr s' ev r,
      Dial dial isTCP s nw addr = Some (s', ev, r) ->
      Config s' = Config s) /\
  (forall script s, Config (fst (fst (runUDP s script))) = Config s).
Proof.
  split; [| split].
  - intros dial s backends cliConn s' ev H. unfold connectTCP in H.
    destruct (next s); [| discriminate]. cbn [mbind option_bind] in H.
    destruct (connectTCP_walk dial cliConn 0 s backends)
      as [[[s2 e2] ok2] |] eqn:E; [| discriminate].
    cbn in H. apply connectTCP_walk_Config in E.
    destruct ok2; inversion H; subst; exact E.
  - intros dial isTCP s nw addr s' ev r H. unfold Dial in H.
    destruct (find_addr addr (Backends s)) as [[i b] |] eqn:E.
    + unfold find_addr in E. apply list_find_Some in E as (Hi & _ & _).
      destruct (dial 0%nat nw (Backend.Addr b)) as [c | e].
      * destruct (isTCP c); [| discriminate]. inversion H; subst.
        apply (Config_insert _ _ b); [exact Hi | reflexivity].
      * inversion H; subst.
        apply (Config_insert _ _ b); [exact Hi | reflexivity].
    + inversion H; subst. reflexivity.
  - intros script s. apply runUDP_Config.
Qed.

(** X16 on the service built from [cfg_web], after three refused
    dials. *)
Lemma traffic_keeps_Config_witness :
  Config (set_Backends (count_errors (Backends web_service) [0; 1; 0]%nat)
            web_service) = Config web_service.
Proof.
  apply (proj1 traffic_keeps_Config dial_refused web_service
           [0; 1; 0]%nat 7%nat _
           (dial_error_log web_service [0; 1; 0]%nat
            ++ [Errorf (MsgNoBackend "web"); Close 7%nat])).
  vm_compute. reflexivity.
Defined.

(** X17: what [Dial] counts.  A backend whose address is not the one
    dialled is left as it is.  When no backend has the address, [Dial]
    fails without changing the service or logging.  A failed dial adds
    one to the errors of the first backend with the address, and a
    successful one adds one to its connections and to its active HTTP
    connections. *)
Theorem Dial_accounting (dial : Dialer) (isTCP : Conn -> bool)
  (s : Service.t) (nw addr : string) (s' : Service.t) (ev : list Event)
  (r : DialReturn) :
  Dial dial isTCP s nw addr = Some (s', ev, r) ->
  s' = set_Backends (Backends s') s /\
  names (Backends s') = names (Backends s) /\
  (forall j b, Backends s !! j = Some b -> Backend.Addr b <> addr ->
               Backends s' !! j = Some b) /\
  match r with
  | DialErrorNoBackend a =>
      a = addr /\ s' = s /\ ev = [] /\
      forall b, In b (Backends s) -> Backend.Addr b <> addr
  | DialErrorWrapped e =>
      exists i b,
        find_addr addr (Backends s) = Some (i, b) /\
        Backends s' =
          <[i := Backend.set_Errors (wrap64 (Backend.Errors b + 1)) b]>
            (Backends s)
  | DialConn c i =>
      exists b,
        find_addr addr (Backends s) = Some (i, b) /\ isTCP c = true /\
        Backends s' =
          <[i := Backend.set_HTTPActive (wrap64 (Backend.HTTPActive b + 1))
                   (Backend.set_Conns (wrap64 (Backend.Conns b + 1)) b)]>
            (Backends s)
  end.
Proof.
  unfold Dial. intros H.
  destruct (find_addr addr (Backends s)) as [[i b] |] eqn:E.
  - pose proof E as E'. unfold find_addr in E'.
    apply list_find_Some in E' as (Hi & Ha & _).
    assert (Hother : forall x j b0,
               Backends s !! j = Some b0 -> Backend.Addr b0 <> addr ->
               <[i := x]> (Backends s) !! j = Some b0).
    { intros x j b0 Hj Hne. rewrite list_lookup_insert_ne; [exact Hj |].
      intros <-. rewrite Hi in Hj. inversion Hj; subst. contradiction. }
    destruct (dial 0%nat nw (Backend.Addr b)) as [c | e].
    + destruct (isTCP c) eqn:Et; [| discriminate]. inversion H; subst.
      cbn [Backends set_Backends].
      split; [reflexivity |].
      split; [apply (names_insert_same _ _ b); [exact Hi | reflexivity] |].
      split; [apply Hother |].
      exists b. repeat split. exact Et.
    + inversion H; subst. cbn [Backends set_Backends].
      split; [reflexivity |].
      split; [apply (names_insert_same _ _ b); [exact Hi | reflexivity] |].
      split; [apply Hother |].
      exists i, b. split; reflexivity.
  - inversion H; subst.
    split; [symmetry; apply set_Backends_same |].
    split; [reflexivity |]. split; [intros j b Hj _; exact Hj |].
    repeat split. intros b Hb. unfold find_addr in E.
    rewrite list_find_None, Forall_forall in E. apply E.
    apply list_elem_of_In. exact Hb.
Qed.

(** X17 on the service built from [cfg_web] and the address of b2,
    which refuses. *)
Lemma Dial_accounting_witness :
  names (<[1%nat := Backend.set_Errors 1
                      (Backend.mk "b2" "10.0.0.2:80" "10.0.0.2:81" 3 "tcp"
                         true 0 0 0 0 0 0 5000000 0 2000000000)]>
           (Backends web_service))
  = names (Backends web_service).
Proof.
  apply (Dial_accounting dial_refused (fun _ => true) web_service "tcp"
           "10.0.0.2:80"
           (set_Backends
              (<[1%nat := Backend.set_Errors 1
                            (Backend.mk "b2" "10.0.0.2:80" "10.0.0.2:81" 3
                               "tcp" true 0 0 0 0 0 0 5000000 0 2000000000)]>
                 (Backends web_service)) web_service)
           [Errorf (MsgConnecting "web" "b2")]
           (DialErrorWrapped (mkIOError "connection refused" (Some false)))).
  vm_compute. reflexivity.
Defined.

End Connections.

(** ** The loops *)

Section Loops.

Import Service.

Lemma runTCP_app (pre rest : list AcceptResult) :
  forallb keeps_accepting pre = true ->
  runTCP (pre ++ rest) =
    (fst (runTCP pre) ++ fst (runTCP rest), snd (runTCP rest)).
Proof.
  induction pre as [| a pre IH]; intros H.
  - cbn. destruct (runTCP rest). reflexivity.
  - cbn in H. apply andb_prop in H as [Ha H]. specialize (IH H).
    cbn [app runTCP]. destruct a as [c | e]; cbn in Ha.
    + rewrite IH. destruct (runTCP pre). reflexivity.
    + rewrite Ha, IH. destruct (runTCP pre). reflexivity.
Qed.

Lemma runTCP_spawned (pre : list AcceptResult) :
  forallb keeps_accepting pre = true ->
  spawned (fst (runTCP pre)) = map TaskConnectTCP (accepted pre) /\
  snd (runTCP pre) = Continue.
Proof.
  induction pre as [| a pre IH]; intros H; [split; reflexivity |].
  cbn in H. apply andb_prop in H as [Ha H]. destruct (IH H) as [IH1 IH2].
  cbn [runTCP]. destruct a as [c | e]; cbn in Ha; rewrite ?Ha;
    destruct (runTCP pre) as [acts l]; cbn in *; rewrite IH1;
    split; (reflexivity || exact IH2).
Qed.

(** X18: the accept loop hands every accepted connection to
    [connectTCP], each once and in the order of arrival, and goes on
    after temporary errors; at the first error that is not temporary it
    returns, and nothing that [Accept] would have answered later is
    looked at. *)
Theorem runTCP_dispatch (pre : list AcceptResult) (e : IOError)
  (rest : list AcceptResult) :
  forallb keeps_accepting pre = true ->
  is_temporary e = false ->
  spawned (fst (runTCP (pre ++ AcceptErr e :: rest)))
    = map TaskConnectTCP (accepted pre) /\
  snd (runTCP (pre ++ AcceptErr e :: rest)) = Return /\
  spawned (fst (runTCP pre)) = map TaskConnectTCP (accepted pre) /\
  snd (runTCP pre) = Continue.
Proof.
  intros Hpre He. destruct (runTCP_spawned pre Hpre) as [H1 H2].
  rewrite (runTCP_app _ _ Hpre). cbn [fst snd runTCP]. rewrite He.
  cbn [fst snd]. rewrite app_nil_r. repeat split; assumption.
Qed.

(** X18 on two connections around a temporary error, followed by the
    closing of the listener. *)
Lemma runTCP_dispatch_witness :
  spawned (fst (runTCP
    ([Accepted 1%nat;
      AcceptErr (mkIOError "accept: too many open files" (Some true));
      Accepted 2%nat]
     ++ AcceptErr (mkIOError closed_text None) :: [Accepted 3%nat])))
  = map TaskConnectTCP [1%nat; 2%nat].
Proof.
  apply (runTCP_dispatch
           [Accepted 1%nat;
            AcceptErr (mkIOError "accept: too many open files" (Some true));
            Accepted 2%nat]); reflexivity.
Defined.

Lemma runUDP_app (pre rest : list Datagram) (s : Service.t) :
  runUDP s (pre ++ rest) =
    match runUDP s pre with
    | (s1, e1, Return) => (s1, e1, Return)
    | (s1, e1, Continue) =>
        let '(s2, e2, l) := runUDP s1 rest in (s2, e1 ++ e2, l)
    end.
Proof.
  revert s. induction pre as [| d pre IH]; intros s.
  - cbn. destruct (runUDP s rest) as [[s2 e2] l]. reflexivity.
  - cbn [app runUDP]. destruct (runUDP_round s d) as [[s1 e1] [|]];
      [| reflexivity].
    rewrite IH. destruct (runUDP s1 pre) as [[s2 e2] [|]]; [| reflexivity].
    destruct (runUDP s2 rest) as [[s3 e3] l]. rewrite app_assoc. reflexivity.
Qed.

(** X19: shutdown of the datagram loop.  When [ReadFromUDP] answers
    that the connection is closed, the loop returns at once: the
    service is as the datagrams before left it, no error is counted or
    logged for the shutdown, and later datagrams are not read. *)
Theorem runUDP_shutdown (s : Service.t) (pre : list Datagram) (d : Datagram)
  (rest : list Datagram) (e : IOError) :
  snd (runUDP s pre) = Continue ->
  rd_err d = Some e -> err_text e = closed_text ->
  runUDP s (pre ++ d :: rest) =
    (fst (fst (runUDP s pre)), snd (fst (runUDP s pre)), Return).
Proof.
  intros Hpre Hd He. rewrite runUDP_app.
  destruct (runUDP s pre) as [[s1 e1] l]. cbn in Hpre. subst l.
  cbn [runUDP fst snd]. unfold runUDP_round. rewrite Hd, He.
  rewrite String.eqb_refl. rewrite app_nil_r. reflexivity.
Qed.

(** X19 on one forwarded datagram followed by the shutdown. *)
Lemma runUDP_shutdown_witness :
  runUDP udp_service
    ([send_ok]
     ++ mkDatagram 0 (Some (mkIOError closed_text None)) None 0 None
        :: [send_ok]) =
    (fst (fst (runUDP udp_service [send_ok])),
     snd (fst (runUDP udp_service [send_ok])), Return).
Proof.
  apply (runUDP_shutdown udp_service [send_ok] _ [send_ok]
           (mkIOError closed_text None)); reflexivity.
Defined.

Lemma runUDP_forward_Rcvd (s : Service.t) (d : Datagram)
  (ev : list Event) :
  int64_range (Rcvd s) ->
  Rcvd (fst (fst (runUDP_forward s d ev))) = wrap64 (Rcvd s + rd_n d) /\
  snd (runUDP_forward s d ev) = Continue.
Proof.
  intros Hr. unfold runUDP_forward.
  destruct (rd_n d =? 0) eqn:En.
  - apply Z.eqb_eq in En. rewrite En, Z.add_0_r, wrap64_id by exact Hr.
    split; reflexivity.
  - destruct (rr d); [| split; reflexivity].
    destruct (wr_err d) as [e |]; [destruct (is_temporary e) |];
      split; reflexivity.
Qed.

(** X20: the received counter.  Over datagrams that are read without
    error the loop never returns, and it adds the size of every
    datagram to [Rcvd], whether or not a backend was there to take it
    and whether or not the forwarding failed. *)
Theorem runUDP_received (script : list Datagram) (s : Service.t) :
  int64_range (Rcvd s) ->
  Forall (fun d => rd_err d = None) script ->
  Rcvd (fst (fst (runUDP s script))) = wrap64 (Rcvd s + received script) /\
  snd (runUDP s script) = Continue.
Proof.
  revert s. induction script as [| d rest IH]; intros s Hr HF.
  - cbn. rewrite Z.add_0_r, wrap64_id by exact Hr. split; reflexivity.
  - apply Forall_cons in HF as [Hd HF]. cbn [runUDP received fold_right].
    unfold runUDP_round. rewrite Hd.
    destruct (runUDP_forward_Rcvd s d [] Hr) as [H1 H2].
    destruct (runUDP_forward s d []) as [[s1 e1] l]. cbn [fst snd] in H1, H2.
    subst l.
    destruct (IH s1) as [IH1 IH2]; [rewrite H1; apply wrap64_range | exact HF |].
    destruct (runUDP s1 rest) as [[s2 e2] l]. cbn [fst snd] in *.
    split; [| exact IH2].
    rewrite IH1, H1, wrap64_add_l. f_equal.
    change (fold_right (fun d0 acc => rd_n d0 + acc) 0 rest)
      with (received rest). lia.
Qed.

(** X20 on three datagrams, one of which cannot be forwarded. *)
Lemma runUDP_received_witness :
  Rcvd (fst (fst (runUDP udp_service [send_ok; send_failure; send_retry])))
  = wrap64 (Rcvd udp_service + received [send_ok; send_failure; send_retry]).
Proof.
  apply runUDP_received.
  - vm_compute. split; [discriminate | reflexivity].
  - repeat constructor.
Defined.

End Loops.

(** ** Starting and stopping a service *)

Section StartStop.

Import Service.

(** X21: [start] on a service that has no listeners yet, followed by
    [stop].  When [start] returns nil it has bound one listener of the
    family of the service's network and started exactly one loop, the
    TCP loop for tcp, tcp4 and tcp6 and the UDP loop for udp, udp4 and
    udp6; [stop] then stops every backend, in list order, and closes
    that listener once.  When [start] returns an error, which for any
    other network name is the unknown network error, it has started no
    loop and left no listener, and [stop] only stops the backends. *)
Theorem stop_after_start (tcp : TCPBind) (udp : UDPBind)
  (closeErr : option IOError) (s : Service.t) :
  let '(ls, acts, err) := start tcp udp s no_listeners in
  match err with
  | None =>
      exists l,
        stop closeErr s ls
        = stop_backends s ++ Ev (Close l) :: close_log closeErr /\
        if is_tcp_network (Network s)
        then spawned acts = [TaskRunTCP] /\ ls = mkListeners (Some l) None
        else spawned acts = [TaskRunUDP] /\ ls = mkListeners None (Some l) /\
             is_udp_network (Network s) = true
  | Some e =>
      spawned acts = [] /\ ls = no_listeners /\
      stop closeErr s ls = stop_backends s /\
      if is_tcp_network (Network s) || is_udp_network (Network s)
      then exists io, e = StartIOError io
      else e = UnknownNetwork (Network s)
  end.
Proof.
  unfold start, stop, stop_backends, close_log, no_listeners.
  destruct (is_tcp_network (Network s)) eqn:Et.
  - destruct tcp as [l | e]; cbn [tcpListener udpListener spawned flat_map app].
    + exists l. repeat split.
    + cbn [orb]. rewrite app_nil_r. repeat split. exists e. reflexivity.
  - destruct (is_udp_network (Network s)) eqn:Eu.
    + destruct udp as [l | e | e];
        cbn [tcpListener udpListener spawned flat_map app orb];
        rewrite ?app_nil_r.
      * exists l. repeat split.
      * repeat split. exists e. reflexivity.
      * repeat split. exists e. reflexivity.
    + cbn [tcpListener udpListener spawned flat_map app orb].
      rewrite app_nil_r. repeat split.
Qed.

End StartStop.

(** ** The state file and the configuration files *)

Section Files.

(** X22: after a call of [writeStateConfig] whose write succeeds, with
    a state path and a configuration that are not empty, the state file
    holds the configuration, and a second call with the same
    configuration writes nothing. *)
Theorem writeStateConfig_settles (stateConfig : string)
  (cfg : list Byte.byte) (wr : WriteResult) (fs : FileSystem) :
  stateConfig <> ""%string -> cfg <> [] ->
  ReadFile (fst (writeStateConfig stateConfig cfg WriteOk fs)) stateConfig
    = cfg /\
  writeStateConfig stateConfig cfg wr
    (fst (writeStateConfig stateConfig cfg WriteOk fs))
  = (fst (writeStateConfig stateConfig cfg WriteOk fs), [Printf MsgNoChange]).
Proof.
  intros Hs Hc.
  assert (Hstable : forall fs1,
             ReadFile fs1 stateConfig = cfg ->
             writeStateConfig stateConfig cfg wr fs1
             = (fs1, [Printf MsgNoChange])).
  { intros fs1 H1. unfold writeStateConfig.
    rewrite (proj2 (String.eqb_neq _ _) Hs).
    destruct cfg as [| c cfg]; [contradiction |]. cbn [length Nat.eqb].
    rewrite (ReadFile_eq_dec _ _ _ H1). reflexivity. }
  assert (Hread : ReadFile (fst (writeStateConfig stateConfig cfg WriteOk fs))
                    stateConfig = cfg).
  { unfold writeStateConfig.
    rewrite (proj2 (String.eqb_neq _ _) Hs).
    destruct cfg as [| c cfg]; [contradiction |]. cbn [length Nat.eqb].
    destruct (bool_decide (c :: cfg = ReadFile fs stateConfig)) eqn:E.
    - apply bool_decide_eq_true in E. cbn [fst]. symmetry. exact E.
    - cbn [fst]. unfold ReadFile. rewrite lookup_insert_eq. reflexivity. }
  split; [exact Hread | apply Hstable; exact Hread].
Qed.

(** X22 on an empty file system. *)
Lemma writeStateConfig_settles_witness :
  ReadFile (fst (writeStateConfig "state.json" cfg_bytes WriteOk ∅))
    "state.json" = cfg_bytes.
Proof.
  apply (writeStateConfig_settles "state.json" cfg_bytes WriteOk ∅);
    discriminate.
Defined.

(** X23: [writeStateConfig] leaves every file other than the state file
    as it is, whether or not the write succeeds. *)
Theorem writeStateConfig_other_files (stateConfig : string)
  (cfg : list Byte.byte) (wr : WriteResult) (fs : FileSystem)
  (path : string) :
  path <> stateConfig ->
  fst (writeStateConfig stateConfig cfg wr fs) !! path = fs !! path.
Proof.
  intros Hp. unfold writeStateConfig.
  destruct (String.eqb stateConfig ""); [reflexivity |].
  destruct (length cfg =? 0)%nat; [reflexivity |].
  destruct (bool_decide (cfg = ReadFile fs stateConfig)); [reflexivity |].
  destruct wr as [| [data |]]; cbn [fst].
  - apply lookup_insert_ne. congruence.
  - apply lookup_insert_ne. congruence.
  - apply lookup_delete_ne. congruence.
Qed.

(** X23 on a default configuration file next to the state file. *)
Lemma writeStateConfig_other_files_witness :
  fst (writeStateConfig "state.json" cfg_bytes (WriteErr None)
         {[ "default.json"%string := cfg_bytes ]}) !! "default.json"%string
  = ({[ "default.json"%string := cfg_bytes ]} : FileSystem)
      !! "default.json"%string.
Proof.
  apply writeStateConfig_other_files. discriminate.
Defined.

Lemma updates_path {C : Type} (unmarshal : list Byte.byte -> option C)
  (update : C -> option string) (fs : FileSystem) (path : string) :
  updates (loadConfig_path unmarshal update fs path)
  = option_list (loadable unmarshal fs path).
Proof.
  unfold loadConfig_path, loadable.
  destruct (String.eqb path ""); [reflexivity |].
  destruct (fs !! path) as [data |]; [| reflexivity]. cbn.
  destruct (unmarshal data) as [cfg |]; [| reflexivity]. cbn.
  destruct (update cfg); reflexivity.
Qed.

(** X24: [loadConfig] hands to the registry the configuration of the
    state path and then the configuration of the default path, each
    one if its path is set and its file can be read and parsed.  A
    state file that loaded does not keep the default file from being
    applied after it, and no failure on one path, a rejection by the
    registry included, stops the other. *)
Theorem loadConfig_updates {C : Type}
  (unmarshal : list Byte.byte -> option C)
  (update1 update2 : C -> option string) (stateConfig defaultConfig : string)
  (fs : FileSystem) :
  updates (loadConfig unmarshal update1 update2 stateConfig defaultConfig fs)
  = option_list (loadable unmarshal fs stateConfig)
    ++ option_list (loadable unmarshal fs defaultConfig).
Proof.
  unfold loadConfig, updates. rewrite flat_map_app.
  fold (updates (loadConfig_path unmarshal update1 fs stateConfig)).
  fold (updates (loadConfig_path unmarshal update2 fs defaultConfig)).
  rewrite !updates_path. reflexivity.
Qed.

End Files.

(** ** The fate of a client connection *)

Section ClientConnection.

Import Service.

Lemma connectTCP_walk_trace (dial : Dialer) (cliConn : Conn)
  (backends : list nat) (k : nat) (s s' : Service.t) (ev : list Event)
  (ok : bool) :
  connectTCP_walk dial cliConn k s backends = Some (s', ev, ok) ->
  if ok then
    exists log b srvConn,
      ev = log ++ [Proxy b srvConn cliConn] /\ forallb is_log log = true
  else forallb is_log ev = true.
Proof.
  revert k s s' ev ok.
  induction backends as [| p rest IH]; intros k s s' ev ok H.
  - cbn in H. inversion H; subst. reflexivity.
  - cbn [connectTCP_walk] in H.
    destruct (Backends s !! p) as [b |] eqn:Hb; [| discriminate].
    cbn [mbind option_bind] in H.
    destruct (dial k (Backend.Network b) (Backend.Addr b)) as [c | e].
    + inversion H; subst. exists [], b, c. split; reflexivity.
    + match type of H with
      | context [connectTCP_walk ?d ?c ?n ?st rest] =>
          destruct (connectTCP_walk d c n st rest) as [[[s2 e2] ok2] |] eqn:E;
            [| discriminate]
      end.
      cbn in H. inversion H; subst. apply IH in E. destruct ok.
      * destruct E as (log & b' & c & -> & Hlog).
        exists (Errorf (MsgConnecting (Name s) (Backend.Name b)) :: log),
          b', c.
        split; [reflexivity | exact Hlog].
      * exact E.
Qed.

(** X25: whenever [connectTCP] returns, the client connection has met
    exactly one fate, which is the last event of the trace: it was
    handed to a backend together with an upstream connection, or the
    missing backend was logged and it was closed.  Everything before is
    log lines. *)
Theorem connectTCP_client_fate (dial : Dialer) (s : Service.t)
  (backends : list nat) (cliConn : Conn) (s' : Service.t)
  (ev : list Event) :
  connectTCP dial s backends cliConn = Some (s', ev) ->
  exists log final,
    ev = log ++ [final] /\ forallb is_log log = true /\
    ((exists b srvConn, final = Proxy b srvConn cliConn) \/
     (final = Close cliConn /\
      last log = Some (Errorf (MsgNoBackend (Name s))))).
Proof.
  unfold connectTCP. intros H.
  destruct (next s); [| discriminate]. cbn [mbind option_bind] in H.
  destruct (connectTCP_walk dial cliConn 0 s backends)
    as [[[s2 e2] ok] |] eqn:E; [| discriminate].
  cbn in H. apply connectTCP_walk_trace in E. destruct ok.
  - destruct E as (log & b0 & c & -> & Hlog). inversion H; subst.
    exists log, (Proxy b0 c cliConn). split; [reflexivity |].
    split; [exact Hlog |]. left. eauto.
  - inversion H; subst.
    exists (e2 ++ [Errorf (MsgNoBackend (Name s))]), (Close cliConn).
    split; [rewrite <- app_assoc; reflexivity |].
    split; [rewrite forallb_app, E; reflexivity |].
    right. split; [reflexivity | apply last_snoc].
Qed.

(** X25 on the service built from [cfg_web] and three refused dials. *)
Lemma connectTCP_client_fate_witness :
  exists log final,
    dial_error_log web_service [0; 1; 0]%nat
    ++ [Errorf (MsgNoBackend "web"); Close 7%nat] = log ++ [final] /\
    forallb is_log log = true /\
    ((exists b srvConn, final = Proxy b srvConn 7%nat) \/
     (final = Close 7%nat /\
      last log = Some (Errorf (MsgNoBackend (Name web_service))))).
Proof.
  apply (connectTCP_client_fate dial_refused web_service [0; 1; 0]%nat 7%nat
           (set_Backends (count_errors (Backends web_service) [0; 1; 0]%nat)
              web_service)).
  vm_compute. reflexivity.
Defined.

End ClientConnection.
